(** * Purchase planning wizard: a shallow embedding and its properties

    Source: [purchase_order_product_recommendation/wizards/purchase_planning.py].

    The wizard [purchase.planning] reads an Odoo database (vendor price
    lists, products, stock move lines, stock levels), aggregates the
    received and the delivered movements per product, merges the two
    aggregates in a Python dictionary and writes one
    [purchase.planning.line] record per key of that dictionary.

    Modelling choices:
    - a record of the ORM is identified by its database id, a recordset is
      the list of its ids (as in the ORM, where [+] concatenates and keeps
      duplicates, and [mapped] on a relational field returns a union);
    - a Python [dict] is an association list with unique keys in insertion
      order: the order in which [action_show_results] creates the rows is
      the iteration order of its dictionary;
    - a [date] is its proleptic ordinal ([date.toordinal()]), a [datetime]
      a number of microseconds; quantities (Python floats) are idealised as
      exact rationals, no property below depends on rounding;
    - Python exceptions are the [Raise] outcomes of an error monad; an
      exception aborts the transaction, so a raising action has no table;
    - the window action returned by [action_show_results] (a dictionary of
      view references) is left out: the action is modelled by its effect on
      the table [purchase.planning.line]. *)

From Stdlib Require Import ZArith QArith List String Bool Lia.
From Stdlib Require Import Permutation Sorted.
Import ListNotations.

Local Open Scope Z_scope.

(** ** Exceptions and the error monad *)

Inductive exn : Type :=
| ZeroDivisionError
| OverflowError
| KeyError.

Inductive result (A : Type) : Type :=
| OK (a : A)
| Raise (e : exn).

Arguments OK {A} a.
Arguments Raise {A} e.

Definition bind {A B : Type} (m : result A) (k : A -> result B) : result B :=
  match m with
  | OK a => k a
  | Raise e => Raise e
  end.

Notation "x <- m ;; k" := (bind m (fun x => k))
  (at level 61, m at next level, right associativity).

Fixpoint mapM {A B : Type} (f : A -> result B) (l : list A) : result (list B) :=
  match l with
  | [] => OK []
  | x :: t => y <- f x ;; ys <- mapM f t ;; OK (y :: ys)
  end.

(** ** Python dictionaries keyed by database ids *)

Definition dict (V : Type) : Type := list (Z * V).

Section Dict.
Context {V : Type}.

Fixpoint dict_get (k : Z) (d : dict V) : option V :=
  match d with
  | [] => None
  | (k', v) :: t => if k' =? k then Some v else dict_get k t
  end.

(** [d[k] = v]: an existing key keeps its position, a new one goes last. *)
Fixpoint dict_set (k : Z) (v : V) (d : dict V) : dict V :=
  match d with
  | [] => [(k, v)]
  | (k', v') :: t =>
      if k' =? k then (k', v) :: t else (k', v') :: dict_set k v t
  end.

(** [d[k][field] = ...]: in-place mutation of the value stored at [k]. *)
Fixpoint dict_adjust (f : V -> V) (k : Z) (d : dict V) : dict V :=
  match d with
  | [] => []
  | (k', v) :: t =>
      if k' =? k then (k', f v) :: t else (k', v) :: dict_adjust f k t
  end.

Definition dict_keys (d : dict V) : list Z := map fst d.
Definition dict_values (d : dict V) : list V := map snd d.

Definition dict_mem (k : Z) (d : dict V) : bool :=
  match dict_get k d with Some _ => true | None => false end.

(** [d[k]], raising [KeyError] on a missing key. *)
Definition dict_getitem (k : Z) (d : dict V) : result V :=
  match dict_get k d with Some v => OK v | None => Raise KeyError end.

(** [{key(x): x for x in l}] *)
Definition dict_of_list (key : V -> Z) (l : list V) : dict V :=
  fold_left (fun d x => dict_set (key x) x d) l [].
End Dict.

(** A loop of assignments [d[key(x)] = val(x)] for [x] in [l]. *)
Definition set_all {A V : Type} (key : A -> Z) (val : A -> V)
    (l : list A) (d0 : dict V) : dict V :=
  fold_left (fun d x => dict_set (key x) (val x) d) l d0.

(** ** Recordsets *)

Definition mem (x : Z) (l : list Z) : bool := existsb (Z.eqb x) l.

(** Union of recordsets keeps the first occurrence of each id. *)
Fixpoint dedup (l : list Z) : list Z :=
  match l with
  | [] => []
  | x :: t => x :: filter (fun y => negb (y =? x)) (dedup t)
  end.

(** [records.mapped(f)] for a many2one field [f]: the union of the non-empty
    values. *)
Definition mapped_m2o {A : Type} (f : A -> option Z) (l : list A) : list Z :=
  dedup (flat_map (fun x => match f x with Some i => [i] | None => [] end) l).

(** [records.mapped(f)] for a one2many field [f]. *)
Definition mapped_o2m (f : Z -> list Z) (l : list Z) : list Z :=
  dedup (flat_map f l).

(** ** Stable sorting

    [sorted before l] is a stable insertion sort: [x] is placed ahead of the
    first [y] with [before x y]. *)

Section Sorting.
Context {A : Type} (before : A -> A -> bool).

Fixpoint insert_sorted (x : A) (l : list A) : list A :=
  match l with
  | [] => [x]
  | y :: t => if before x y then x :: y :: t else y :: insert_sorted x t
  end.

Definition sorted (l : list A) : list A := fold_right insert_sorted [] l.
End Sorting.

(** ** Dates *)

(** [date.max.toordinal()], the ordinal of 9999-12-31. *)
Definition MAXORDINAL : Z := 3652059.

Definition valid_date (d : Z) : Prop := 1 <= d <= MAXORDINAL.

(** [d + timedelta(days=n)] raises [OverflowError] outside [date.min],
    [date.max]. *)
Definition date_add_days (d n : Z) : result Z :=
  let o := d + n in
  if (1 <=? o) && (o <=? MAXORDINAL) then OK o else Raise OverflowError.

(** [(d1 - d2).days] *)
Definition date_sub_days (d1 d2 : Z) : Z := d1 - d2.

Definition US_PER_DAY : Z := 86400000000.

(** [datetime.combine(d, datetime.min.time())] *)
Definition combine_min (d : Z) : Z := d * US_PER_DAY.

(** [datetime.combine(d, datetime.max.time())], 23:59:59.999999 of day [d]. *)
Definition combine_max (d : Z) : Z := d * US_PER_DAY + (US_PER_DAY - 1).

(** ** The database read by the wizard *)

(** [product.supplierinfo]: [name] is the vendor, a required many2one. *)
Record supplierinfo : Type := {
  si_name : Z;
  si_product_tmpl_id : option Z;
  si_product_id : option Z;
  si_price : Q;
  si_currency_id : Z
}.

(** [stock.move.line], with the dotted paths of the search domain resolved:
    [location_id.usage], [location_dest_id.usage] and
    [picking_id.picking_type_id.warehouse_id] (empty when the line has no
    transfer or the operation type no warehouse). *)
Record move_line : Type := {
  ml_product_id : Z;
  ml_date : Z;
  ml_location_usage : string;
  ml_location_dest_usage : string;
  ml_state : string;
  ml_qty_done : Q;
  ml_warehouse_id : option Z
}.

(** What the wizard reads through the ORM.  The models belong to Odoo, not
    to this module, so their content is data here: the commercial entity
    of a partner, the vendor price lists, the flags of templates and
    products ([active], [purchase_ok], [categ_id]) and the active variants
    of a template, the ids of all products, the stock move lines, the
    stock levels and the seller resolver. *)
Record database : Type := {
  commercial_partner_id : Z -> Z;
  supplierinfo_table : list supplierinfo;
  tmpl_active : Z -> bool;
  tmpl_purchase_ok : Z -> bool;
  product_variant_ids : Z -> list Z;
  product_table : list Z;
  prod_active : Z -> bool;
  prod_purchase_ok : Z -> bool;
  prod_categ_id : Z -> Z;
  move_line_table : list move_line;
  (** stock levels, unscoped ([None]) or in the context of a warehouse *)
  qty_available : option Z -> Z -> Q;
  virtual_available : option Z -> Z -> Q;
  (** [product._select_seller(partner_id=..., date=today, quantity=1,
      uom_id=product.uom_po_id)]: a vendor price list record or the empty
      recordset *)
  select_seller : Z -> option Z -> option supplierinfo
}.

(** *** Search domains *)

Inductive move_leaf : Type :=
| ProductIdIn (ids : list Z)
| DateGe (dt : Z)
| DateLe (dt : Z)
| LocationUsageEq (u : string)
| LocationDestUsageEq (u : string)
| StateEq (s : string)
| WarehouseIdIn (ids : list Z).

Definition eval_move_leaf (m : move_line) (l : move_leaf) : bool :=
  match l with
  | ProductIdIn ids => mem (ml_product_id m) ids
  | DateGe dt => dt <=? ml_date m
  | DateLe dt => ml_date m <=? dt
  | LocationUsageEq u => String.eqb (ml_location_usage m) u
  | LocationDestUsageEq u => String.eqb (ml_location_dest_usage m) u
  | StateEq s => String.eqb (ml_state m) s
  | WarehouseIdIn ids =>
      match ml_warehouse_id m with
      | Some w => mem w ids
      | None => false
      end
  end.

(** A domain is the conjunction of its leaves. *)
Definition eval_move_domain (domain : list move_leaf) (m : move_line) : bool :=
  forallb (eval_move_leaf m) domain.

Inductive product_leaf : Type :=
| PurchaseOkEq (b : bool)
| CategIdIn (ids : list Z).

Definition eval_product_leaf (db : database) (p : Z) (l : product_leaf) : bool :=
  match l with
  | PurchaseOkEq b => Bool.eqb (prod_purchase_ok db p) b
  | CategIdIn ids => mem (prod_categ_id db p) ids
  end.

(** [env["product.product"].search(domain)]: archived products are left out
    (the ORM's implicit [active] test). *)
Definition search_products (db : database) (domain : list product_leaf) : list Z :=
  filter (fun p => prod_active db p && forallb (eval_product_leaf db p) domain)
         (product_table db).

(** [env["product.supplierinfo"].search([("name", "=", partner.id)])]; with
    an empty [partner] the leaf compares the required field with [False]
    and selects nothing. *)
Definition search_supplierinfo (db : database) (partner : option Z) : list supplierinfo :=
  match partner with
  | Some p => filter (fun s => si_name s =? p) (supplierinfo_table db)
  | None => []
  end.

(** *** Grouped reads *)

(** One group of [read_group(domain, ["product_id", "qty_done"],
    ["product_id"])]: the id in [product_id[0]], the number of lines of the
    group and the sum of their [qty_done]. *)
Record group : Type := {
  g_product_id : Z;
  g_product_id_count : Z;
  g_qty_done : Q
}.

Definition Qsum (l : list Q) : Q := fold_right Qplus 0%Q l.

Definition search_move_lines (db : database) (domain : list move_leaf) : list move_line :=
  filter (eval_move_domain domain) (move_line_table db).

Definition group_of (found : list move_line) (p : Z) : group :=
  let g := filter (fun m => ml_product_id m =? p) found in
  {| g_product_id := p;
     g_product_id_count := Z.of_nat (List.length g);
     g_qty_done := Qsum (map ml_qty_done g) |}.

(** Groups come back in the order of the grouping field. *)
Definition read_group (db : database) (domain : list move_leaf) : list group :=
  let found := search_move_lines db domain in
  map (group_of found) (sorted Z.leb (dedup (map ml_product_id found))).

(** ** The wizard [purchase.planning] *)

Record PurchasePlanning : Type := {
  partner_id : option Z;
  date_begin : Z;
  date_end : Z;
  show_all_partner_products : bool;
  show_all_products : bool;
  product_category_ids : list Z;
  warehouse_ids : list Z
}.

(** A non-empty recordset is truthy. *)
Definition nonempty {A : Type} (l : list A) : bool :=
  match l with [] => false | _ :: _ => true end.

Definition onchange_show_all_products (self : PurchasePlanning) : PurchasePlanning :=
  if show_all_products self then
    {| partner_id := None;
       date_begin := date_begin self;
       date_end := date_end self;
       show_all_partner_products := false;
       show_all_products := show_all_products self;
       product_category_ids := product_category_ids self;
       warehouse_ids := warehouse_ids self |}
  else self.

Definition _get_total_days (self : PurchasePlanning) : result Z :=
  next <- date_add_days (date_end self) 1 ;;
  OK (date_sub_days next (date_begin self)).

Definition _get_supplier_products (db : database) (self : PurchasePlanning) : list Z :=
  let partner := option_map (commercial_partner_id db) (partner_id self) in
  let supplierinfos := search_supplierinfo db partner in
  let product_tmpls :=
    filter (fun x => tmpl_active db x && tmpl_purchase_ok db x)
           (mapped_m2o si_product_tmpl_id supplierinfos) in
  let products :=
    filter (fun x => prod_active db x && prod_purchase_ok db x)
           (mapped_m2o si_product_id supplierinfos) in
  products ++ mapped_o2m (product_variant_ids db) product_tmpls.

Definition _get_products (db : database) (self : PurchasePlanning) : list Z :=
  let products := _get_supplier_products db self in
  if nonempty (product_category_ids self) then
    filter (fun x => mem (prod_categ_id db x) (product_category_ids self)) products
  else products.

Definition _get_move_line_domain (self : PurchasePlanning) (products : list Z)
    (src dst : string) : list move_leaf :=
  let domain :=
    [ ProductIdIn products;
      DateGe (combine_min (date_begin self));
      DateLe (combine_max (date_end self));
      LocationUsageEq src;
      LocationDestUsageEq dst;
      StateEq "done"%string ] in
  if nonempty (warehouse_ids self) then
    domain ++ [ WarehouseIdIn (warehouse_ids self) ]
  else domain.

Definition _get_all_products_domain (self : PurchasePlanning) : list product_leaf :=
  let domain := [ PurchaseOkEq true ] in
  if nonempty (product_category_ids self) then
    domain ++ [ CategIdIn (product_category_ids self) ]
  else domain.

(** The dictionaries handled by [_find_move_line] and [action_show_results]:
    a key that is absent from the Python dictionary is [None] here. *)
Record vals : Type := {
  v_id : option Z;
  v_product_id : Z;
  v_product_id_count : option Z;
  v_qty_done : option Q;
  v_qty_received : option Q;
  v_times_received : option Z;
  v_qty_delivered : option Q;
  v_times_delivered : option Z
}.

(** [{"product_id": product}] *)
Definition vals_of_product (product : Z) : vals :=
  {| v_id := None; v_product_id := product;
     v_product_id_count := None; v_qty_done := None;
     v_qty_received := None; v_times_received := None;
     v_qty_delivered := None; v_times_delivered := None |}.

(** [d.get(key, 0)] *)
Definition getZ (o : option Z) : Z := match o with Some x => x | None => 0 end.
Definition getQ (o : option Q) : Q := match o with Some x => x | None => 0%Q end.

(** The sort key [(res["product_id_count"], res["qty_done"])] compared as
    Python compares tuples; [key_ge x y] is [key(x) >= key(y)]. *)
Definition key_ge (x y : group) : bool :=
  (g_product_id_count y <? g_product_id_count x)
  || ((g_product_id_count y =? g_product_id_count x)
      && Qle_bool (g_qty_done y) (g_qty_done x)).

(** [product_dict = {p.id: p for p in products}] *)
Definition product_dict (products : list Z) : dict Z :=
  dict_of_list (fun p => p) products.

Definition found_line (pd : dict Z) (x : group) : result vals :=
  product <- dict_getitem (g_product_id x) pd ;;
  OK {| v_id := Some (g_product_id x);
        v_product_id := product;
        v_product_id_count := Some (g_product_id_count x);
        v_qty_done := Some (g_qty_done x);
        v_qty_received := None; v_times_received := None;
        v_qty_delivered := None; v_times_delivered := None |}.

(** The key of [{line["id"]: line for line in found_lines}]. *)
Definition line_key (line : vals) : Z := getZ (v_id line).

(** Lines 118-127: the products shown without any movement. *)
Definition show_all (db : database) (self : PurchasePlanning)
    (products : list Z) (found_lines : dict vals) : dict vals :=
  let products :=
    if show_all_products self then
      products ++ search_products db (_get_all_products_domain self)
    else products in
  if show_all_partner_products self || show_all_products self then
    fold_left (fun d product => dict_set product (vals_of_product product) d)
              (filter (fun p => negb (dict_mem p found_lines)) products)
              found_lines
  else found_lines.

(** [_find_move_line], parameterised by the manual ordering of line 102 so
    that the pipeline without it can be compared with the source's. *)
Definition find_move_line_with (order : list group -> list group)
    (db : database) (self : PurchasePlanning) (src dst : string)
    : result (dict vals) :=
  let products := _get_products db self in
  let domain := _get_move_line_domain self products src dst in
  let found_lines := read_group db domain in
  let found_lines := order found_lines in
  let pd := product_dict products in
  found_lines <- mapM (found_line pd) found_lines ;;
  let found_lines := dict_of_list line_key found_lines in
  OK (show_all db self products found_lines).

Definition _find_move_line (db : database) (self : PurchasePlanning)
    (src dst : string) : result (dict vals) :=
  find_move_line_with (sorted key_ge) db self src dst.

(** ** The report table [purchase.planning.line] *)

Record PurchasePlanningLine : Type := {
  l_product_id : Z;
  l_partner_id : option Z;
  l_times_delivered : Z;
  l_times_received : Z;
  l_units_received : Q;
  l_units_available : Q;
  l_units_virtual_available : Q;
  l_units_avg_delivered : Q;
  l_units_delivered : Q;
  l_price_unit : Q;
  l_currency_id : option Z
}.

(** [sum([...])] starts from the integer 0. *)
Definition py_sum (l : list Q) : Q := fold_left Qplus l 0%Q.

(** [a / b]: [ZeroDivisionError] on a zero divisor.  The quotient of two
    Python floats is idealised as the exact rational quotient; the
    properties below rely on whether the division raises and on the
    quotient of zero, not on the digits of a nonzero quotient. *)
Definition py_div (a : Q) (b : Z) : result Q :=
  if b =? 0 then Raise ZeroDivisionError else OK (a / inject_Z b)%Q.

(** Fields read on an empty recordset take their null value. *)
Definition seller_price (s : option supplierinfo) : Q :=
  match s with Some x => si_price x | None => 0%Q end.
Definition seller_currency_id (s : option supplierinfo) : option Z :=
  option_map si_currency_id s.
Definition seller_name_id (s : option supplierinfo) : option Z :=
  option_map si_name s.

Definition _prepare_wizard_line (db : database) (self : PurchasePlanning)
    (v : vals) : result PurchasePlanningLine :=
  let product_id := v_product_id v in
  let units_available :=
    if nonempty (warehouse_ids self) then
      py_sum (map (fun wh => qty_available db (Some wh) product_id)
                  (warehouse_ids self))
    else qty_available db None product_id in
  let units_virtual_available :=
    if nonempty (warehouse_ids self) then
      py_sum (map (fun wh => virtual_available db (Some wh) product_id)
                  (warehouse_ids self))
    else virtual_available db None product_id in
  let price_unit := seller_price (select_seller db product_id (partner_id self)) in
  let currency_id := seller_currency_id (select_seller db product_id (partner_id self)) in
  let vendor_id := seller_name_id (select_seller db product_id (partner_id self)) in
  total_days <- _get_total_days self ;;
  units_avg_delivered <- py_div (getQ (v_qty_delivered v)) total_days ;;
  OK {| l_product_id := product_id;
        l_partner_id := vendor_id;
        l_times_delivered := getZ (v_times_delivered v);
        l_times_received := getZ (v_times_received v);
        l_units_received := getQ (v_qty_received v);
        l_units_available := units_available;
        l_units_virtual_available := units_virtual_available;
        l_units_avg_delivered := units_avg_delivered;
        l_units_delivered := getQ (v_qty_delivered v);
        l_price_unit := price_unit;
        l_currency_id := currency_id |}.

(** Lines 188-190: every entry of the received aggregate is annotated in
    place. *)
Definition set_received (line : vals) : vals :=
  {| v_id := v_id line; v_product_id := v_product_id line;
     v_product_id_count := v_product_id_count line;
     v_qty_done := v_qty_done line;
     v_qty_received := Some (getQ (v_qty_done line));
     v_times_received := Some (getZ (v_product_id_count line));
     v_qty_delivered := v_qty_delivered line;
     v_times_delivered := v_times_delivered line |}.

Definition annotate_received (found_dict : dict vals) : dict vals :=
  map (fun kv => (fst kv, set_received (snd kv))) found_dict.

(** Lines 197-198. *)
Definition set_delivered (line : vals) (entry : vals) : vals :=
  {| v_id := v_id entry; v_product_id := v_product_id entry;
     v_product_id_count := v_product_id_count entry;
     v_qty_done := v_qty_done entry;
     v_qty_received := v_qty_received entry;
     v_times_received := v_times_received entry;
     v_qty_delivered := Some (getQ (v_qty_done line));
     v_times_delivered := Some (getZ (v_product_id_count line)) |}.

(** Truth value of [found_dict.get(product)]: an entry always carries its
    ["product_id"] key, so only a missing entry is falsy. *)
Definition truthy (o : option vals) : bool :=
  match o with Some _ => true | None => false end.

(** One iteration of the loop of lines 194-198. *)
Definition merge_step (found_dict : dict vals) (item : Z * vals) : dict vals :=
  let product := fst item in
  let line := snd item in
  let found_dict :=
    if negb (truthy (dict_get product found_dict))
    then dict_set product line found_dict
    else found_dict in
  dict_adjust (set_delivered line) product found_dict.

Definition merge_delivered (found_dict found_delivered_dict : dict vals) : dict vals :=
  fold_left merge_step found_delivered_dict found_dict.

(** Lines 199-201: [lines_obj.create] appends to the table.  The table
    holds the values handed to [create]; the rounding that the ORM applies
    when it stores [units_avg_delivered] (declared with the digits of the
    product unit of measure, line 226) is not modelled. *)
Fixpoint create_lines (db : database) (self : PurchasePlanning)
    (items : dict vals) (table : list PurchasePlanningLine)
    : result (list PurchasePlanningLine) :=
  match items with
  | [] => OK table
  | (_, line) :: t =>
      new_line <- _prepare_wizard_line db self line ;;
      create_lines db self t (table ++ [new_line])
  end.

(** [lines_obj.search([]).unlink()] *)
Definition unlink_all (table : list PurchasePlanningLine) : list PurchasePlanningLine :=
  [].

(** The dictionary of lines 186-198. *)
Definition merged_with (order : list group -> list group)
    (db : database) (self : PurchasePlanning) : result (dict vals) :=
  found_dict <- find_move_line_with order db self "supplier"%string "internal"%string ;;
  let found_dict := annotate_received found_dict in
  found_delivered_dict <- find_move_line_with order db self "internal"%string "customer"%string ;;
  OK (merge_delivered found_dict found_delivered_dict).

Definition show_results_with (order : list group -> list group)
    (db : database) (self : PurchasePlanning)
    (table : list PurchasePlanningLine) : result (list PurchasePlanningLine) :=
  let table := unlink_all table in
  found_dict <- merged_with order db self ;;
  create_lines db self found_dict table.

(** [action_show_results]: the new content of the report table, or the
    exception that aborts the transaction. *)
Definition action_show_results (db : database) (self : PurchasePlanning)
    (table : list PurchasePlanningLine) : result (list PurchasePlanningLine) :=
  show_results_with (sorted key_ge) db self table.

(** The variant without the manual ordering of line 102. *)
Definition action_show_results_unsorted (db : database) (self : PurchasePlanning)
    (table : list PurchasePlanningLine) : result (list PurchasePlanningLine) :=
  show_results_with (fun found_lines => found_lines) db self table.

(** [_order = "product_id"], the default order that the model
    [purchase.planning.line] declares (line 216). *)
Definition _order : string := "product_id".

(** Modelled from the spec: the ordered read of the report table.  The
    module only declares [_order]; the read itself is the ORM's and is not
    in the source.  The specification has the rows "ordered by product
    identity (ascending) at read time, not by any computed metric": a
    table ordered on its product field comes back in ascending rank of
    the products of its rows, where [rank] places a product in the order
    of products (its id, for the order by identity of the specification;
    the ORM ranks the records of a many2one field by the order of their
    own model).  Under any other order field the rows come back as they
    were created. *)
Definition product_leb (rank : Z -> Z) (a b : PurchasePlanningLine) : bool :=
  rank (l_product_id a) <=? rank (l_product_id b).

Definition read_lines (rank : Z -> Z) (order : string)
    (table : list PurchasePlanningLine) : list PurchasePlanningLine :=
  if String.eqb order "product_id" then sorted (product_leb rank) table
  else table.

(** ** Reference descriptions of the aggregates

    What the dictionaries of [_find_move_line] and [action_show_results]
    hold, product by product; the theorems below relate them to the code. *)

(** The movements selected by the query of [_find_move_line]. *)
Definition selected_moves (db : database) (self : PurchasePlanning)
    (src dst : string) : list move_line :=
  search_move_lines db
    (_get_move_line_domain self (_get_products db self) src dst).

(** The value of [products] at line 124. *)
Definition shown_products (db : database) (self : PurchasePlanning) : list Z :=
  if show_all_products self then
    _get_products db self ++ search_products db (_get_all_products_domain self)
  else _get_products db self.

(** The entry built at lines 108-116 from a group. *)
Definition line_of_group (x : group) : vals :=
  {| v_id := Some (g_product_id x);
     v_product_id := g_product_id x;
     v_product_id_count := Some (g_product_id_count x);
     v_qty_done := Some (g_qty_done x);
     v_qty_received := None; v_times_received := None;
     v_qty_delivered := None; v_times_delivered := None |}.

Definition aggregate_entry (db : database) (self : PurchasePlanning)
    (src dst : string) (p : Z) : option vals :=
  let found := selected_moves db self src dst in
  if mem p (map ml_product_id found) then
    Some (line_of_group (group_of found p))
  else if (show_all_partner_products self || show_all_products self)
          && mem p (shown_products db self) then
    Some (vals_of_product p)
  else None.

(** The entry of the merged dictionary, from the received and the delivered
    entries of a product. *)
Definition merged_entry (received delivered : option vals) : option vals :=
  match delivered with
  | Some line =>
      Some (set_delivered line
              (match received with
               | Some entry => set_received entry
               | None => line
               end))
  | None => option_map set_received received
  end.

(** ** Notions used by the statements *)

(** Count and quantity that an aggregate holds for a product: zero when the
    product has no entry, or an entry without figures. *)
Definition times_of (d : dict vals) (p : Z) : Z :=
  match dict_get p d with
  | Some e => getZ (v_product_id_count e)
  | None => 0
  end.

Definition units_of (d : dict vals) (p : Z) : Q :=
  match dict_get p d with
  | Some e => getQ (v_qty_done e)
  | None => 0%Q
  end.

(** The selected movements of one product. *)
Definition moves_of (db : database) (self : PurchasePlanning)
    (src dst : string) (p : Z) : list move_line :=
  filter (fun m => ml_product_id m =? p) (selected_moves db self src dst).

(** The contract of the movement query, relative to the set of products it
    is said to range over. *)
Definition query_contract (products : list Z) (db : database)
    (self : PurchasePlanning) (src dst : string) : Prop :=
  forall m, In m (move_line_table db) ->
    (In m (selected_moves db self src dst) <->
     ml_state m = "done"%string
     /\ In (ml_product_id m) products
     /\ combine_min (date_begin self) <= ml_date m <= combine_max (date_end self)
     /\ ml_location_usage m = src
     /\ ml_location_dest_usage m = dst
     /\ (warehouse_ids self <> [] ->
         exists w, ml_warehouse_id m = Some w /\ In w (warehouse_ids self))).

(** A price list record declares that its vendor supplies product [p],
    directly or through the template of [p]. *)
Definition vendor_association (db : database) (s : supplierinfo) (p : Z) : Prop :=
  si_product_id s = Some p
  \/ exists t, si_product_tmpl_id s = Some t /\ In p (product_variant_ids db t).

(** A product of the selected vendor: supplied by the vendor's commercial
    entity through a record naming the product itself (then the product is
    active and purchasable) or its template (then the template is, and the
    product is one of its variants), and within the category filter. *)
Definition vendor_product (db : database) (self : PurchasePlanning) (p : Z) : Prop :=
  (exists s,
      In s (supplierinfo_table db)
      /\ option_map (commercial_partner_id db) (partner_id self) = Some (si_name s)
      /\ ((si_product_id s = Some p
           /\ prod_active db p = true /\ prod_purchase_ok db p = true)
          \/ (exists t, si_product_tmpl_id s = Some t
                        /\ tmpl_active db t = true /\ tmpl_purchase_ok db t = true
                        /\ In p (product_variant_ids db t))))
  /\ (product_category_ids self = []
      \/ In (prod_categ_id db p) (product_category_ids self)).

(** The seller resolver chooses among the price list records of the
    product. *)
Definition seller_resolver_contract (db : database) : Prop :=
  forall p partner s,
    select_seller db p partner = Some s ->
    In s (supplierinfo_table db) /\ vendor_association db s p.

(** No vendor sells product [p]. *)
Definition unsold (db : database) (p : Z) : Prop :=
  forall s, In s (supplierinfo_table db) -> ~ vendor_association db s p.

(** An entry after the merge, against the same entry before it: every key
    but ["qty_delivered"] and ["times_delivered"] is as it was. *)
Definition same_but_delivered (e e' : vals) : Prop :=
  v_id e' = v_id e
  /\ v_product_id e' = v_product_id e
  /\ v_product_id_count e' = v_product_id_count e
  /\ v_qty_done e' = v_qty_done e
  /\ v_qty_received e' = v_qty_received e
  /\ v_times_received e' = v_times_received e.

Definition result_map {A B : Type} (f : A -> B) (m : result A) : result B :=
  match m with
  | OK a => OK (f a)
  | Raise e => Raise e
  end.

(** The report as displayed after the action, read in the declared
    [_order]. *)
Definition report (rank : Z -> Z) (db : database) (self : PurchasePlanning)
    (table : list PurchasePlanningLine) : result (list PurchasePlanningLine) :=
  result_map (read_lines rank _order) (action_show_results db self table).

Definition report_unsorted (rank : Z -> Z) (db : database) (self : PurchasePlanning)
    (table : list PurchasePlanningLine) : result (list PurchasePlanningLine) :=
  result_map (read_lines rank _order) (action_show_results_unsorted db self table).

(** The dictionary items made from a sorted list of groups followed by the
    products shown without movement. *)
Definition items_of_groups (groups : list group) : dict vals :=
  map (fun g => (g_product_id g, line_of_group g)) groups.

Definition items_of_products (products : list Z) : dict vals :=
  map (fun p => (p, vals_of_product p)) products.

(** ** A sample database

    Vendor 10 sells product 1 (through template 100) and product 2 (named
    on the record itself and again through template 200); product 3 is
    purchasable and sold by nobody.  The window 738000..738002 spans three
    days: product 1 was delivered twice (10 and 20 units, the second at the
    last microsecond of the window), product 2 received once (10 units),
    product 3 delivered once (5 units). *)

Definition si_100 : supplierinfo :=
  {| si_name := 10; si_product_tmpl_id := Some 100; si_product_id := None;
     si_price := 5; si_currency_id := 1 |}.

Definition si_200 : supplierinfo :=
  {| si_name := 10; si_product_tmpl_id := Some 200; si_product_id := Some 2;
     si_price := 7 # 2; si_currency_id := 1 |}.

Definition delivery (p : Z) (date : Z) (state : string) (qty : Q) : move_line :=
  {| ml_product_id := p; ml_date := date;
     ml_location_usage := "internal"; ml_location_dest_usage := "customer";
     ml_state := state; ml_qty_done := qty; ml_warehouse_id := Some 1 |}.

Definition receipt (p : Z) (date : Z) (state : string) (qty : Q) : move_line :=
  {| ml_product_id := p; ml_date := date;
     ml_location_usage := "supplier"; ml_location_dest_usage := "internal";
     ml_state := state; ml_qty_done := qty; ml_warehouse_id := Some 1 |}.

Definition db_example : database :=
  {| commercial_partner_id := fun p => p;
     supplierinfo_table := [si_100; si_200];
     tmpl_active := fun _ => true;
     tmpl_purchase_ok := fun _ => true;
     product_variant_ids := fun t =>
       if t =? 100 then [1] else if t =? 200 then [2]
       else if t =? 300 then [3] else [];
     product_table := [1; 2; 3];
     prod_active := fun _ => true;
     prod_purchase_ok := fun _ => true;
     prod_categ_id := fun _ => 1;
     move_line_table :=
       [ delivery 1 (combine_min 738000 + 1) "done" 10;
         delivery 1 (combine_max 738002) "done" 20;
         receipt 2 (combine_min 738001) "done" 10;
         delivery 3 (combine_min 738001) "done" 5;
         delivery 1 (combine_min 738001) "assigned" 99;
         delivery 1 (combine_min 738003) "done" 99 ];
     qty_available := fun _ _ => 0%Q;
     virtual_available := fun _ _ => 0%Q;
     select_seller := fun p _ =>
       if p =? 1 then Some si_100 else if p =? 2 then Some si_200 else None |}.

Definition self_example : PurchasePlanning :=
  {| partner_id := Some 10;
     date_begin := 738000; date_end := 738002;
     show_all_partner_products := true;
     show_all_products := false;
     product_category_ids := [];
     warehouse_ids := [] |}.

(** No vendor, every purchasable product shown: the state left by
    [onchange_show_all_products]. *)
Definition self_show_all : PurchasePlanning :=
  {| partner_id := None;
     date_begin := 738000; date_end := 738002;
     show_all_partner_products := false;
     show_all_products := true;
     product_category_ids := [];
     warehouse_ids := [] |}.

(** A window that ends the day before it begins. *)
Definition self_reversed : PurchasePlanning :=
  {| partner_id := Some 10;
     date_begin := 738001; date_end := 738000;
     show_all_partner_products := true;
     show_all_products := false;
     product_category_ids := [];
     warehouse_ids := [] |}.

(** No vendor selected, vendor products still ticked. *)
Definition self_no_vendor : PurchasePlanning :=
  {| partner_id := None;
     date_begin := 738000; date_end := 738002;
     show_all_partner_products := true;
     show_all_products := false;
     product_category_ids := [];
     warehouse_ids := [] |}.

(** The window of a request is safe when its number of days is computed, is
    the inclusive day count, is at least one, and every row gets its
    average as the quotient by that number. *)
Definition window_days_safe (self : PurchasePlanning) : Prop :=
  exists d,
    _get_total_days self = OK d
    /\ d = date_sub_days (date_end self) (date_begin self) + 1
    /\ 1 <= d
    /\ forall db v, exists row,
         _prepare_wizard_line db self v = OK row
         /\ l_units_avg_delivered row = (getQ (v_qty_delivered v) / inject_Z d)%Q.

(** Both flags ticked and a vendor selected, before the onchange runs. *)
Definition self_both_flags : PurchasePlanning :=
  {| partner_id := Some 10;
     date_begin := 738000; date_end := 738002;
     show_all_partner_products := true;
     show_all_products := true;
     product_category_ids := [];
     warehouse_ids := [] |}.

(** The rows that the action creates for [self_example], in creation
    order, and a row left by an earlier invocation. *)
Definition rows_example : list PurchasePlanningLine :=
  [ {| l_product_id := 2; l_partner_id := Some 10;
       l_times_delivered := 0; l_times_received := 1;
       l_units_received := 10; l_units_available := 0;
       l_units_virtual_available := 0;
       l_units_avg_delivered := 0 # 3; l_units_delivered := 0;
       l_price_unit := 7 # 2; l_currency_id := Some 1 |};
    {| l_product_id := 1; l_partner_id := Some 10;
       l_times_delivered := 2; l_times_received := 0;
       l_units_received := 0; l_units_available := 0;
       l_units_virtual_available := 0;
       l_units_avg_delivered := 30 # 3; l_units_delivered := 30;
       l_price_unit := 5; l_currency_id := Some 1 |} ].

Definition row_3 : PurchasePlanningLine :=
  {| l_product_id := 3; l_partner_id := None;
     l_times_delivered := 0; l_times_received := 0;
     l_units_received := 0; l_units_available := 0;
     l_units_virtual_available := 0;
     l_units_avg_delivered := 0 # 3; l_units_delivered := 0;
     l_price_unit := 0; l_currency_id := None |}.

(** A window on the last day of the calendar. *)
Definition self_last_day : PurchasePlanning :=
  {| partner_id := Some 10;
     date_begin := MAXORDINAL; date_end := MAXORDINAL;
     show_all_partner_products := true;
     show_all_products := false;
     product_category_ids := [];
     warehouse_ids := [] |}.

(** ** Variations of a request *)

(** The same request for another vendor. *)
Definition with_partner (self : PurchasePlanning) (partner : option Z) : PurchasePlanning :=
  {| partner_id := partner;
     date_begin := date_begin self;
     date_end := date_end self;
     show_all_partner_products := show_all_partner_products self;
     show_all_products := show_all_products self;
     product_category_ids := product_category_ids self;
     warehouse_ids := warehouse_ids self |}.

(** The same request without its warehouse filter. *)
Definition without_warehouses (self : PurchasePlanning) : PurchasePlanning :=
  {| partner_id := partner_id self;
     date_begin := date_begin self;
     date_end := date_end self;
     show_all_partner_products := show_all_partner_products self;
     show_all_products := show_all_products self;
     product_category_ids := product_category_ids self;
     warehouse_ids := [] |}.

(** The calendar day of a timestamp, [datetime.date()]. *)
Definition day_of (dt : Z) : Z := dt / US_PER_DAY.

(** The sample database with a contact 11 of the vendor 10. *)
Definition db_contacts : database :=
  {| commercial_partner_id := fun p => if p =? 11 then 10 else p;
     supplierinfo_table := supplierinfo_table db_example;
     tmpl_active := tmpl_active db_example;
     tmpl_purchase_ok := tmpl_purchase_ok db_example;
     product_variant_ids := product_variant_ids db_example;
     product_table := product_table db_example;
     prod_active := prod_active db_example;
     prod_purchase_ok := prod_purchase_ok db_example;
     prod_categ_id := prod_categ_id db_example;
     move_line_table := move_line_table db_example;
     qty_available := qty_available db_example;
     virtual_available := virtual_available db_example;
     select_seller := select_seller db_example |}.

(** A window that ends two days before it begins. *)
Definition self_backwards : PurchasePlanning :=
  {| partner_id := Some 10;
     date_begin := 738002; date_end := 738000;
     show_all_partner_products := true;
     show_all_products := false;
     product_category_ids := [];
     warehouse_ids := [] |}.

(** The sample request restricted to category 1 and to warehouse 1. *)
Definition self_filtered : PurchasePlanning :=
  {| partner_id := Some 10;
     date_begin := 738000; date_end := 738002;
     show_all_partner_products := true;
     show_all_products := false;
     product_category_ids := [1];
     warehouse_ids := [1] |}.

(** The second row of [rows_example]. *)
Definition row_1 : PurchasePlanningLine :=
  {| l_product_id := 1; l_partner_id := Some 10;
     l_times_delivered := 2; l_times_received := 0;
     l_units_received := 0; l_units_available := 0;
     l_units_virtual_available := 0;
     l_units_avg_delivered := 30 # 3; l_units_delivered := 30;
     l_price_unit := 5; l_currency_id := Some 1 |}.

(** The rows that the action creates for [self_show_all], and for the
    request left by the onchange handler on [self_both_flags]. *)
Definition rows_show_all : list PurchasePlanningLine :=
  [ {| l_product_id := 1; l_partner_id := Some 10;
       l_times_delivered := 0; l_times_received := 0;
       l_units_received := 0; l_units_available := 0;
       l_units_virtual_available := 0;
       l_units_avg_delivered := 0 # 3; l_units_delivered := 0;
       l_price_unit := 5; l_currency_id := Some 1 |};
    {| l_product_id := 2; l_partner_id := Some 10;
       l_times_delivered := 0; l_times_received := 0;
       l_units_received := 0; l_units_available := 0;
       l_units_virtual_available := 0;
       l_units_avg_delivered := 0 # 3; l_units_delivered := 0;
       l_price_unit := 7 # 2; l_currency_id := Some 1 |};
    row_3 ].

Definition Zsum (l : list Z) : Z := fold_right Z.add 0 l.

(** * Properties *)

(** ** The error monad *)

Lemma bind_OK_inv {A B : Type} (m : result A) (k : A -> result B) (b : B) :
  bind m k = OK b -> exists a, m = OK a /\ k a = OK b.
Proof.
  destruct m as [a|e]; simpl; intros H.
  - exists a. split; [reflexivity | exact H].
  - discriminate H.
Qed.

(** [bind_inv H x Hx]: from [H : bind m k = OK b], the value [x] of [m]. *)
Ltac bind_inv H x Hx :=
  apply bind_OK_inv in H; destruct H as [x [Hx H]].

Lemma mapM_OK {A B : Type} (f : A -> result B) (g : A -> B) (l : list A) :
  (forall x, In x l -> f x = OK (g x)) -> mapM f l = OK (map g l).
Proof.
  induction l as [|x t IH]; simpl; intros H.
  - reflexivity.
  - rewrite (H x (or_introl eq_refl)). simpl.
    rewrite IH by (intros y Hy; apply H; right; exact Hy).
    reflexivity.
Qed.

(** ** Dictionaries *)

Section DictFacts.
Context {V : Type}.
Implicit Types (d : dict V) (k : Z) (v : V).

Lemma dict_get_set_eq k v d : dict_get k (dict_set k v d) = Some v.
Proof.
  induction d as [|[k' v'] t IH]; simpl.
  - rewrite Z.eqb_refl. reflexivity.
  - destruct (k' =? k) eqn:E; simpl; rewrite E; [reflexivity | exact IH].
Qed.

Lemma dict_get_set_neq k k' v d :
  k <> k' -> dict_get k' (dict_set k v d) = dict_get k' d.
Proof.
  intros Hne. induction d as [|[k0 v0] t IH]; simpl.
  - destruct (k =? k') eqn:E; [apply Z.eqb_eq in E; contradiction | reflexivity].
  - destruct (k0 =? k) eqn:E; simpl.
    + apply Z.eqb_eq in E. subst k0.
      destruct (k =? k') eqn:E'; [apply Z.eqb_eq in E'; contradiction | reflexivity].
    + destruct (k0 =? k'); [reflexivity | exact IH].
Qed.

Lemma dict_keys_set k k' v d :
  In k' (dict_keys (dict_set k v d)) <-> k' = k \/ In k' (dict_keys d).
Proof.
  unfold dict_keys. induction d as [|[k0 v0] t IH]; simpl.
  - intuition.
  - destruct (k0 =? k) eqn:E; simpl.
    + apply Z.eqb_eq in E. subst k0. intuition.
    + rewrite IH. intuition.
Qed.

Lemma dict_set_NoDup k v d :
  NoDup (dict_keys d) -> NoDup (dict_keys (dict_set k v d)).
Proof.
  unfold dict_keys. induction d as [|[k0 v0] t IH]; simpl; intros H.
  - constructor; [intros [] | constructor].
  - destruct (k0 =? k) eqn:E; simpl.
    + exact H.
    + inversion H as [|? ? Hn Ht]; subst. constructor.
      * intros Hin. apply (dict_keys_set k k0 v t) in Hin.
        destruct Hin as [->|Hin]; [rewrite Z.eqb_refl in E; discriminate | contradiction].
      * apply IH. exact Ht.
Qed.

Lemma dict_keys_adjust (f : V -> V) k d :
  dict_keys (dict_adjust f k d) = dict_keys d.
Proof.
  unfold dict_keys. induction d as [|[k0 v0] t IH]; simpl.
  - reflexivity.
  - destruct (k0 =? k); simpl; [reflexivity | rewrite IH; reflexivity].
Qed.

Lemma dict_get_adjust_eq (f : V -> V) k d :
  dict_get k (dict_adjust f k d) = option_map f (dict_get k d).
Proof.
  induction d as [|[k0 v0] t IH]; simpl.
  - reflexivity.
  - destruct (k0 =? k) eqn:E; simpl; rewrite E; [reflexivity | exact IH].
Qed.

Lemma dict_get_adjust_neq (f : V -> V) k k' d :
  k <> k' -> dict_get k' (dict_adjust f k d) = dict_get k' d.
Proof.
  intros Hne. induction d as [|[k0 v0] t IH]; simpl.
  - reflexivity.
  - destruct (k0 =? k) eqn:E; simpl.
    + apply Z.eqb_eq in E. subst k0.
      destruct (k =? k') eqn:E'; [apply Z.eqb_eq in E'; contradiction | reflexivity].
    + destruct (k0 =? k'); [reflexivity | exact IH].
Qed.

Lemma dict_get_Some_In k v d : dict_get k d = Some v -> In (k, v) d.
Proof.
  induction d as [|[k0 v0] t IH]; simpl; intros H.
  - discriminate.
  - destruct (k0 =? k) eqn:E.
    + apply Z.eqb_eq in E. injection H as ->. left. subst. reflexivity.
    + right. apply IH. exact H.
Qed.

Lemma dict_get_None k d : dict_get k d = None <-> ~ In k (dict_keys d).
Proof.
  unfold dict_keys. induction d as [|[k0 v0] t IH]; simpl.
  - intuition.
  - destruct (k0 =? k) eqn:E.
    + apply Z.eqb_eq in E. split; [discriminate | intros H; exfalso; apply H; left; exact E].
    + apply Z.eqb_neq in E. rewrite IH. intuition.
Qed.

Lemma dict_In_get k v d :
  NoDup (dict_keys d) -> In (k, v) d -> dict_get k d = Some v.
Proof.
  unfold dict_keys. induction d as [|[k0 v0] t IH]; simpl; intros Hnd Hin.
  - contradiction.
  - inversion Hnd as [|? ? Hn Ht]; subst.
    destruct Hin as [Heq|Hin].
    + injection Heq as -> ->. rewrite Z.eqb_refl. reflexivity.
    + destruct (k0 =? k) eqn:E.
      * apply Z.eqb_eq in E. subst k0. exfalso. apply Hn.
        apply (in_map fst) in Hin. exact Hin.
      * apply IH; assumption.
Qed.

Lemma dict_mem_In k d : dict_mem k d = true <-> In k (dict_keys d).
Proof.
  unfold dict_mem. destruct (dict_get k d) eqn:E.
  - split; [intros _ | reflexivity].
    apply dict_get_Some_In in E. apply (in_map fst) in E. exact E.
  - split; [discriminate | intros H]. apply dict_get_None in E. contradiction.
Qed.

Lemma NoDup_keys_NoDup d : NoDup (dict_keys d) -> NoDup d.
Proof.
  unfold dict_keys. intros H. apply (NoDup_map_inv fst). exact H.
Qed.

(** Two dictionaries with the same lookups hold the same items. *)
Lemma dict_ext_Permutation d1 d2 :
  NoDup (dict_keys d1) -> NoDup (dict_keys d2) ->
  (forall k, dict_get k d1 = dict_get k d2) -> Permutation d1 d2.
Proof.
  intros H1 H2 Hget. apply NoDup_Permutation.
  - apply NoDup_keys_NoDup. exact H1.
  - apply NoDup_keys_NoDup. exact H2.
  - intros [k v]. split; intros Hin.
    + apply dict_get_Some_In. rewrite <- Hget. apply dict_In_get; assumption.
    + apply dict_get_Some_In. rewrite Hget. apply dict_In_get; assumption.
Qed.
End DictFacts.

(** Dictionaries built by a loop of assignments [d[key(x)] = val(x)]. *)

Section DictFold.
Context {A V : Type} (key : A -> Z) (val : A -> V).

Lemma set_all_cons x l (d0 : dict V) :
  set_all key val (x :: l) d0 = set_all key val l (dict_set (key x) (val x) d0).
Proof. reflexivity. Qed.

Lemma set_all_NoDup l (d0 : dict V) :
  NoDup (dict_keys d0) -> NoDup (dict_keys (set_all key val l d0)).
Proof.
  revert d0. induction l as [|x t IH]; intros d0 H.
  - exact H.
  - rewrite set_all_cons. apply IH. apply dict_set_NoDup. exact H.
Qed.

Lemma set_all_keys l (d0 : dict V) k :
  In k (dict_keys (set_all key val l d0)) <->
  In k (dict_keys d0) \/ exists x, In x l /\ key x = k.
Proof.
  revert d0. induction l as [|x t IH]; intros d0.
  - simpl. split; [intros H; left; exact H | intros [H|[x [[] _]]]; exact H].
  - rewrite set_all_cons, IH, dict_keys_set. simpl. split.
    + intros [[->|H]|[y [Hy Hk]]].
      * right. exists x. split; [left; reflexivity | reflexivity].
      * left. exact H.
      * right. exists y. split; [right; exact Hy | exact Hk].
    + intros [H|[y [[->|Hy] Hk]]].
      * left. right. exact H.
      * left. left. symmetry. exact Hk.
      * right. exists y. split; assumption.
Qed.

Lemma set_all_get_other l (d0 : dict V) k :
  (forall x, In x l -> key x <> k) ->
  dict_get k (set_all key val l d0) = dict_get k d0.
Proof.
  revert d0. induction l as [|x t IH]; intros d0 H.
  - reflexivity.
  - rewrite set_all_cons, IH by (intros y Hy; apply H; right; exact Hy).
    apply dict_get_set_neq. apply H. left. reflexivity.
Qed.

Lemma set_all_get l (d0 : dict V) k w :
  (exists x, In x l /\ key x = k) ->
  (forall x, In x l -> key x = k -> val x = w) ->
  dict_get k (set_all key val l d0) = Some w.
Proof.
  revert d0. induction l as [|x t IH]; intros d0 [y [Hy Hk]] Hw.
  - contradiction.
  - rewrite set_all_cons.
    destruct (existsb (fun z => key z =? k) t) eqn:E.
    + apply existsb_exists in E. destruct E as [z [Hz Hzk]].
      apply Z.eqb_eq in Hzk. apply IH.
      * exists z. split; assumption.
      * intros u Hu. apply Hw. right. exact Hu.
    + assert (Hnone : forall z, In z t -> key z <> k).
      { intros z Hz Hzk.
        assert (Hex : existsb (fun z => key z =? k) t = true).
        { apply existsb_exists. exists z. split; [exact Hz | apply Z.eqb_eq; exact Hzk]. }
        rewrite Hex in E. discriminate. }
      destruct Hy as [->|Hy]; [|exfalso; exact (Hnone y Hy Hk)].
      rewrite set_all_get_other by exact Hnone.
      rewrite <- (Hw y (or_introl eq_refl) Hk), <- Hk.
      apply dict_get_set_eq.
Qed.
End DictFold.

(** ** Recordsets *)

Lemma mem_In (x : Z) (l : list Z) : mem x l = true <-> In x l.
Proof.
  unfold mem. rewrite existsb_exists. split.
  - intros [y [Hy E]]. apply Z.eqb_eq in E. subst y. exact Hy.
  - intros H. exists x. split; [exact H | apply Z.eqb_refl].
Qed.

Lemma mem_nil_false (x : Z) (l : list Z) : mem x l = false <-> ~ In x l.
Proof.
  rewrite <- mem_In. destruct (mem x l); split; intros H; try reflexivity;
    try discriminate; try (intros H'; discriminate); exfalso; apply H; reflexivity.
Qed.

Lemma dedup_In (x : Z) (l : list Z) : In x (dedup l) <-> In x l.
Proof.
  induction l as [|y t IH]; simpl.
  - reflexivity.
  - rewrite filter_In, IH. split.
    + intros [H|[H _]]; [left | right]; exact H.
    + intros [H|H]; [left; exact H|].
      destruct (Z.eq_dec y x) as [E|E]; [left; exact E|].
      right. split; [exact H|]. apply negb_true_iff. apply Z.eqb_neq.
      intros E'. apply E. symmetry. exact E'.
Qed.

Lemma dedup_NoDup (l : list Z) : NoDup (dedup l).
Proof.
  induction l as [|y t IH]; simpl.
  - constructor.
  - constructor.
    + rewrite filter_In. intros [_ H]. rewrite Z.eqb_refl in H. discriminate.
    + apply NoDup_filter. exact IH.
Qed.

(** ** Sorting *)

Section SortingFacts.
Context {A : Type} (before : A -> A -> bool).

Lemma insert_sorted_Permutation (x : A) (l : list A) :
  Permutation (insert_sorted before x l) (x :: l).
Proof.
  induction l as [|y t IH]; simpl.
  - apply Permutation_refl.
  - destruct (before x y).
    + apply Permutation_refl.
    + apply perm_trans with (y :: x :: t).
      * apply perm_skip. exact IH.
      * apply perm_swap.
Qed.

Lemma sorted_Permutation (l : list A) : Permutation (sorted before l) l.
Proof.
  induction l as [|x t IH]; simpl.
  - apply perm_nil.
  - apply perm_trans with (x :: sorted before t).
    + apply insert_sorted_Permutation.
    + apply perm_skip. exact IH.
Qed.

Lemma sorted_In (x : A) (l : list A) : In x (sorted before l) <-> In x l.
Proof.
  split; apply Permutation_in;
    [apply sorted_Permutation | apply Permutation_sym, sorted_Permutation].
Qed.

Hypothesis before_total : forall a b, before a b = true \/ before b a = true.
Hypothesis before_trans :
  forall a b c, before a b = true -> before b c = true -> before a c = true.

Lemma insert_sorted_StronglySorted (x : A) (l : list A) :
  StronglySorted (fun a b => before a b = true) l ->
  StronglySorted (fun a b => before a b = true) (insert_sorted before x l).
Proof.
  induction l as [|y t IH]; simpl; intros H.
  - constructor; constructor.
  - inversion H as [|? ? Ht Hy]; subst.
    destruct (before x y) eqn:E.
    + constructor; [exact H|]. constructor; [exact E|].
      rewrite Forall_forall in *. intros z Hz.
      apply before_trans with y; [exact E | apply Hy; exact Hz].
    + constructor; [apply IH; exact Ht|].
      rewrite Forall_forall in *. intros z Hz.
      apply (Permutation_in _ (insert_sorted_Permutation x t)) in Hz.
      destruct Hz as [<-|Hz]; [|apply Hy; exact Hz].
      destruct (before_total x y) as [E'|E']; [rewrite E' in E; discriminate | exact E'].
Qed.

Lemma sorted_StronglySorted (l : list A) :
  StronglySorted (fun a b => before a b = true) (sorted before l).
Proof.
  induction l as [|x t IH]; simpl.
  - constructor.
  - apply insert_sorted_StronglySorted. exact IH.
Qed.
End SortingFacts.

(** A list sorted on pairwise distinct integer keys is determined by its
    elements. *)

Section SortedUnique.
Context {A : Type} (key : A -> Z).

Lemma strictly_sorted_unique (l1 l2 : list A) :
  StronglySorted (fun a b => key a < key b) l1 ->
  StronglySorted (fun a b => key a < key b) l2 ->
  Permutation l1 l2 -> l1 = l2.
Proof.
  revert l2. induction l1 as [|a t1 IH]; intros l2 H1 H2 HP.
  - apply Permutation_nil in HP. symmetry. exact HP.
  - destruct l2 as [|b t2].
    + apply Permutation_sym, Permutation_nil in HP. discriminate.
    + inversion H1 as [|? ? Ht1 Ha]; subst.
      inversion H2 as [|? ? Ht2 Hb]; subst.
      rewrite Forall_forall in Ha, Hb.
      assert (Hab : a = b).
      { assert (Hin1 : In a (b :: t2)) by (apply (Permutation_in _ HP); left; reflexivity).
        assert (Hin2 : In b (a :: t1))
          by (apply (Permutation_in _ (Permutation_sym HP)); left; reflexivity).
        destruct Hin1 as [E|Hin1]; [symmetry; exact E|].
        destruct Hin2 as [E|Hin2]; [exact E|].
        specialize (Ha _ Hin2). specialize (Hb _ Hin1). lia. }
      subst b. f_equal. apply IH; try assumption.
      apply Permutation_cons_inv with a. exact HP.
Qed.

Lemma sorted_by_key_strict (l : list A) :
  NoDup (map key l) ->
  StronglySorted (fun a b => key a < key b)
                 (sorted (fun a b => key a <=? key b) l).
Proof.
  intros Hnd.
  assert (Hs : StronglySorted (fun a b => (key a <=? key b) = true)
                              (sorted (fun a b => key a <=? key b) l)).
  { apply sorted_StronglySorted.
    - intros a b. rewrite !Z.leb_le. lia.
    - intros a b c. rewrite !Z.leb_le. lia. }
  assert (Hnd' : NoDup (map key (sorted (fun a b => key a <=? key b) l))).
  { apply (Permutation_NoDup (l := map key l)); [|exact Hnd].
    apply Permutation_map, Permutation_sym, sorted_Permutation. }
  revert Hs Hnd'. generalize (sorted (fun a b => key a <=? key b) l).
  induction l0 as [|a t IH]; intros Hs Hnd'.
  - constructor.
  - inversion Hs as [|? ? Ht Ha]; subst. simpl in Hnd'.
    inversion Hnd' as [|? ? Hn Hndt]; subst.
    constructor; [apply IH; assumption|].
    rewrite Forall_forall in *. intros z Hz.
    specialize (Ha z Hz). apply Z.leb_le in Ha.
    assert (key a <> key z).
    { intros E. apply Hn. rewrite E. apply in_map. exact Hz. }
    lia.
Qed.

Lemma sorted_by_key_Permutation (l1 l2 : list A) :
  NoDup (map key l1) -> Permutation l1 l2 ->
  sorted (fun a b => key a <=? key b) l1 = sorted (fun a b => key a <=? key b) l2.
Proof.
  intros Hnd HP. apply strictly_sorted_unique.
  - apply sorted_by_key_strict. exact Hnd.
  - apply sorted_by_key_strict.
    apply (Permutation_NoDup (l := map key l1)); [|exact Hnd].
    apply Permutation_map. exact HP.
  - apply perm_trans with l1; [apply sorted_Permutation|].
    apply perm_trans with l2; [exact HP | apply Permutation_sym, sorted_Permutation].
Qed.
End SortedUnique.

(** ** Grouped reads *)

Lemma search_move_lines_In (db : database) (domain : list move_leaf) (m : move_line) :
  In m (search_move_lines db domain) <->
  In m (move_line_table db) /\ eval_move_domain domain m = true.
Proof. unfold search_move_lines. apply filter_In. Qed.

Lemma group_of_product_id (found : list move_line) (p : Z) :
  g_product_id (group_of found p) = p.
Proof. reflexivity. Qed.

Lemma read_group_product_ids (db : database) (domain : list move_leaf) :
  map g_product_id (read_group db domain)
  = sorted Z.leb (dedup (map ml_product_id (search_move_lines db domain))).
Proof.
  unfold read_group. rewrite map_map. simpl. apply map_id.
Qed.

Lemma read_group_NoDup (db : database) (domain : list move_leaf) :
  NoDup (map g_product_id (read_group db domain)).
Proof.
  rewrite read_group_product_ids.
  apply (Permutation_NoDup (l := dedup (map ml_product_id (search_move_lines db domain)))).
  - apply Permutation_sym, sorted_Permutation.
  - apply dedup_NoDup.
Qed.

Lemma read_group_In (db : database) (domain : list move_leaf) (g : group) :
  In g (read_group db domain) <->
  In (g_product_id g) (map ml_product_id (search_move_lines db domain))
  /\ g = group_of (search_move_lines db domain) (g_product_id g).
Proof.
  unfold read_group. rewrite in_map_iff. split.
  - intros [p [<- Hp]]. rewrite sorted_In, dedup_In in Hp.
    split; [exact Hp | reflexivity].
  - intros [Hp Hg]. exists (g_product_id g). split; [symmetry; exact Hg|].
    rewrite sorted_In, dedup_In. exact Hp.
Qed.

(** ** The movement aggregator *)

Lemma product_dict_get (products : list Z) (k : Z) :
  In k products -> dict_get k (product_dict products) = Some k.
Proof.
  intros H. unfold product_dict, dict_of_list.
  change (dict_get k (set_all (fun p => p) (fun p => p) products []) = Some k).
  apply set_all_get.
  - exists k. split; [exact H | reflexivity].
  - intros x _ E. exact E.
Qed.

Lemma domain_product (self : PurchasePlanning) (products : list Z)
    (src dst : string) (m : move_line) :
  eval_move_domain (_get_move_line_domain self products src dst) m = true ->
  In (ml_product_id m) products.
Proof.
  unfold _get_move_line_domain, eval_move_domain. intros H.
  assert (H' : eval_move_leaf m (ProductIdIn products) = true).
  { destruct (nonempty (warehouse_ids self)); simpl in H;
      apply andb_true_iff in H; apply H. }
  apply mem_In. exact H'.
Qed.

Lemma selected_moves_products (db : database) (self : PurchasePlanning)
    (src dst : string) (p : Z) :
  In p (map ml_product_id (selected_moves db self src dst)) ->
  In p (_get_products db self).
Proof.
  rewrite in_map_iff. intros [m [<- Hm]].
  apply search_move_lines_In in Hm. destruct Hm as [_ Hm].
  apply domain_product in Hm. exact Hm.
Qed.

Lemma show_all_NoDup (db : database) (self : PurchasePlanning)
    (products : list Z) (found_lines : dict vals) :
  NoDup (dict_keys found_lines) ->
  NoDup (dict_keys (show_all db self products found_lines)).
Proof.
  intros H. unfold show_all.
  destruct (show_all_partner_products self || show_all_products self); [|exact H].
  apply (set_all_NoDup (fun p => p) vals_of_product). exact H.
Qed.

Lemma show_all_get (db : database) (self : PurchasePlanning)
    (found_lines : dict vals) (p : Z) :
  dict_get p (show_all db self (_get_products db self) found_lines)
  = match dict_get p found_lines with
    | Some v => Some v
    | None =>
        if (show_all_partner_products self || show_all_products self)
           && mem p (shown_products db self)
        then Some (vals_of_product p) else None
    end.
Proof.
  unfold show_all. fold (shown_products db self).
  destruct (show_all_partner_products self || show_all_products self); simpl.
  - change (fold_left _ ?l ?d) with (set_all (fun q : Z => q) vals_of_product l d).
    destruct (dict_get p found_lines) as [v|] eqn:E.
    + rewrite set_all_get_other; [exact E|].
      intros x Hx ->. apply filter_In in Hx. destruct Hx as [_ Hx].
      unfold dict_mem in Hx. rewrite E in Hx. discriminate.
    + destruct (mem p (shown_products db self)) eqn:M.
      * apply set_all_get.
        -- exists p. split; [|reflexivity]. apply filter_In. split.
           ++ apply mem_In. exact M.
           ++ unfold dict_mem. rewrite E. reflexivity.
        -- intros x _ ->. reflexivity.
      * rewrite set_all_get_other; [exact E|].
        intros x Hx ->. apply filter_In in Hx. destruct Hx as [Hx _].
        apply mem_In in Hx. rewrite Hx in M. discriminate.
  - destruct (dict_get p found_lines); reflexivity.
Qed.

Section Aggregator.
Variable order : list group -> list group.
Hypothesis order_Permutation : forall l, Permutation (order l) l.

(** The aggregator never raises [KeyError]; its dictionary has one entry
    per product, the one described by [aggregate_entry], whatever the
    intermediate ordering. *)
Lemma find_move_line_with_spec (db : database) (self : PurchasePlanning)
    (src dst : string) :
  exists d, find_move_line_with order db self src dst = OK d
            /\ NoDup (dict_keys d)
            /\ forall p, dict_get p d = aggregate_entry db self src dst p.
Proof.
  unfold find_move_line_with.
  set (products := _get_products db self).
  set (domain := _get_move_line_domain self products src dst).
  set (groups := order (read_group db domain)).
  assert (Hin : forall g, In g groups <->
            In (g_product_id g) (map ml_product_id (selected_moves db self src dst))
            /\ g = group_of (selected_moves db self src dst) (g_product_id g)).
  { intros g. unfold groups, selected_moves. fold products. fold domain.
    rewrite <- read_group_In. split; apply Permutation_in.
    - apply order_Permutation.
    - apply Permutation_sym, order_Permutation. }
  assert (Hnd : NoDup (map g_product_id groups)).
  { apply (Permutation_NoDup (l := map g_product_id (read_group db domain))).
    - apply Permutation_map, Permutation_sym, order_Permutation.
    - apply read_group_NoDup. }
  rewrite (mapM_OK _ line_of_group).
  2:{ intros g Hg. apply Hin in Hg. destruct Hg as [Hg _].
      apply selected_moves_products in Hg.
      unfold found_line, dict_getitem. fold products in Hg.
      rewrite (product_dict_get _ _ Hg). reflexivity. }
  simpl. eexists. split; [reflexivity|]. split.
  - apply show_all_NoDup. unfold dict_of_list.
    apply (set_all_NoDup line_key (fun x => x)). constructor.
  - intros p. unfold products. rewrite show_all_get.
    unfold aggregate_entry, dict_of_list.
    change (fold_left _ ?l ?d) with (set_all line_key (fun x : vals => x) l d).
    destruct (mem p (map ml_product_id (selected_moves db self src dst))) eqn:M.
    + apply mem_In in M.
      rewrite (set_all_get line_key (fun x => x) _ _ p
                 (line_of_group (group_of (selected_moves db self src dst) p))).
      * reflexivity.
      * exists (line_of_group (group_of (selected_moves db self src dst) p)).
        split; [|reflexivity]. apply in_map. apply Hin. split; [exact M | reflexivity].
      * intros x Hx Hk. apply in_map_iff in Hx. destruct Hx as [g [<- Hg]].
        apply Hin in Hg. destruct Hg as [_ Hg].
        change (g_product_id g = p) in Hk. subst p.
        rewrite <- Hg. reflexivity.
    + rewrite set_all_get_other.
      * reflexivity.
      * intros x Hx Hk. apply in_map_iff in Hx. destruct Hx as [g [<- Hg]].
        apply Hin in Hg. destruct Hg as [Hg _].
        change (g_product_id g = p) in Hk. subst p.
        apply mem_In in Hg. rewrite Hg in M. discriminate.
Qed.
End Aggregator.

(** ** Merging the two aggregates *)

Lemma annotate_received_keys (d : dict vals) :
  dict_keys (annotate_received d) = dict_keys d.
Proof.
  unfold annotate_received, dict_keys. rewrite map_map. reflexivity.
Qed.

Lemma annotate_received_get (d : dict vals) (p : Z) :
  dict_get p (annotate_received d) = option_map set_received (dict_get p d).
Proof.
  induction d as [|[k v] t IH]; simpl.
  - reflexivity.
  - destruct (k =? p); [reflexivity | exact IH].
Qed.

Lemma merge_step_keys (fd : dict vals) (item : Z * vals) (k : Z) :
  In k (dict_keys (merge_step fd item)) <-> k = fst item \/ In k (dict_keys fd).
Proof.
  unfold merge_step. rewrite dict_keys_adjust.
  destruct (dict_get (fst item) fd) eqn:E; simpl.
  - split; [intros H; right; exact H | intros [->|H]; [|exact H]].
    apply dict_mem_In. unfold dict_mem. rewrite E. reflexivity.
  - apply dict_keys_set.
Qed.

Lemma merge_step_NoDup (fd : dict vals) (item : Z * vals) :
  NoDup (dict_keys fd) -> NoDup (dict_keys (merge_step fd item)).
Proof.
  intros H. unfold merge_step. rewrite dict_keys_adjust.
  destruct (negb (truthy (dict_get (fst item) fd))); [|exact H].
  apply dict_set_NoDup. exact H.
Qed.

Lemma merge_step_get_eq (fd : dict vals) (k : Z) (line : vals) :
  dict_get k (merge_step fd (k, line))
  = Some (set_delivered line
            (match dict_get k fd with Some entry => entry | None => line end)).
Proof.
  unfold merge_step. simpl. rewrite dict_get_adjust_eq.
  destruct (dict_get k fd) eqn:E; simpl.
  - rewrite E. reflexivity.
  - rewrite dict_get_set_eq. reflexivity.
Qed.

Lemma merge_step_get_neq (fd : dict vals) (k p : Z) (line : vals) :
  k <> p -> dict_get p (merge_step fd (k, line)) = dict_get p fd.
Proof.
  intros Hne. unfold merge_step. simpl.
  rewrite dict_get_adjust_neq by exact Hne.
  destruct (negb (truthy (dict_get k fd))); [|reflexivity].
  apply dict_get_set_neq. exact Hne.
Qed.

Lemma merge_delivered_NoDup (fd delivered : dict vals) :
  NoDup (dict_keys fd) -> NoDup (dict_keys (merge_delivered fd delivered)).
Proof.
  unfold merge_delivered. revert fd.
  induction delivered as [|item t IH]; simpl; intros fd H.
  - exact H.
  - apply IH. apply merge_step_NoDup. exact H.
Qed.

Lemma merge_delivered_keys (fd delivered : dict vals) (k : Z) :
  In k (dict_keys (merge_delivered fd delivered)) <->
  In k (dict_keys fd) \/ In k (dict_keys delivered).
Proof.
  unfold merge_delivered. revert fd.
  induction delivered as [|item t IH]; simpl; intros fd.
  - intuition.
  - rewrite IH, merge_step_keys. intuition.
Qed.

Lemma merge_delivered_get (fd delivered : dict vals) (p : Z) :
  NoDup (dict_keys delivered) ->
  dict_get p (merge_delivered fd delivered)
  = match dict_get p delivered with
    | Some line =>
        Some (set_delivered line
                (match dict_get p fd with Some entry => entry | None => line end))
    | None => dict_get p fd
    end.
Proof.
  unfold merge_delivered. revert fd.
  induction delivered as [|[k line] t IH]; simpl; intros fd Hnd.
  - reflexivity.
  - inversion Hnd as [|? ? Hn Ht]; subst. rewrite IH by exact Ht.
    destruct (k =? p) eqn:E.
    + apply Z.eqb_eq in E. subst k.
      assert (Hnone : dict_get p t = None) by (apply dict_get_None; exact Hn).
      rewrite Hnone. apply merge_step_get_eq.
    + apply Z.eqb_neq in E. rewrite merge_step_get_neq by exact E. reflexivity.
Qed.

Section Merged.
Variable order : list group -> list group.
Hypothesis order_Permutation : forall l, Permutation (order l) l.

Lemma merged_with_spec (db : database) (self : PurchasePlanning) :
  exists d, merged_with order db self = OK d
            /\ NoDup (dict_keys d)
            /\ forall p, dict_get p d
                         = merged_entry
                             (aggregate_entry db self "supplier" "internal" p)
                             (aggregate_entry db self "internal" "customer" p).
Proof.
  unfold merged_with.
  destruct (find_move_line_with_spec order order_Permutation db self
              "supplier" "internal") as [d1 [E1 [N1 G1]]].
  destruct (find_move_line_with_spec order order_Permutation db self
              "internal" "customer") as [d2 [E2 [N2 G2]]].
  rewrite E1. simpl. rewrite E2. simpl.
  eexists. split; [reflexivity|]. split.
  - apply merge_delivered_NoDup. rewrite annotate_received_keys. exact N1.
  - intros p. rewrite merge_delivered_get by exact N2.
    rewrite annotate_received_get, G1, G2. unfold merged_entry.
    destruct (aggregate_entry db self "internal" "customer" p);
      destruct (aggregate_entry db self "supplier" "internal" p); reflexivity.
Qed.
End Merged.

(** Every entry is stored under the id of its product. *)

Lemma aggregate_entry_product (db : database) (self : PurchasePlanning)
    (src dst : string) (p : Z) (v : vals) :
  aggregate_entry db self src dst p = Some v -> v_product_id v = p.
Proof.
  unfold aggregate_entry.
  destruct (mem p _); [intros H; injection H as <-; reflexivity|].
  destruct (_ && _); [intros H; injection H as <-; reflexivity | discriminate].
Qed.

Lemma merged_entry_product (received delivered : option vals) (p : Z) (v : vals) :
  (forall e, received = Some e -> v_product_id e = p) ->
  (forall e, delivered = Some e -> v_product_id e = p) ->
  merged_entry received delivered = Some v -> v_product_id v = p.
Proof.
  intros Hr Hd. unfold merged_entry.
  destruct delivered as [line|]; destruct received as [entry|]; simpl; intros H;
    try discriminate; injection H as <-; simpl.
  - apply Hr. reflexivity.
  - apply Hd. reflexivity.
  - apply Hr. reflexivity.
Qed.

(** ** Creating the rows *)

Lemma create_lines_mapM (db : database) (self : PurchasePlanning)
    (items : dict vals) (table : list PurchasePlanningLine) :
  create_lines db self items table
  = rows <- mapM (fun kv => _prepare_wizard_line db self (snd kv)) items ;;
    OK (table ++ rows).
Proof.
  revert table. induction items as [|[k line] t IH]; simpl; intros table.
  - rewrite app_nil_r. reflexivity.
  - destruct (_prepare_wizard_line db self line) as [row|e]; simpl; [|reflexivity].
    rewrite IH. destruct (mapM _ t) as [rows|e]; simpl; [|reflexivity].
    rewrite <- app_assoc. reflexivity.
Qed.

Lemma mapM_Forall2 {A B : Type} (f : A -> result B) (l : list A) (r : list B) :
  mapM f l = OK r <-> Forall2 (fun x y => f x = OK y) l r.
Proof.
  revert r. induction l as [|x t IH]; simpl; intros r.
  - split.
    + intros H. injection H as <-. constructor.
    + intros H. inversion H. reflexivity.
  - split.
    + intros H. bind_inv H y Hy. bind_inv H ys Hys.
      injection H as <-. constructor; [exact Hy | apply IH; exact Hys].
    + intros H. inversion H as [|? y ? ys Hy Hys]; subst.
      rewrite Hy. simpl. apply IH in Hys. rewrite Hys. reflexivity.
Qed.

Lemma mapM_Permutation {A B : Type} (f : A -> result B) (l1 l2 : list A) :
  Permutation l1 l2 ->
  forall r1, mapM f l1 = OK r1 ->
  exists r2, mapM f l2 = OK r2 /\ Permutation r1 r2.
Proof.
  induction 1 as [|x l l' HP IH|x y l|l l' l'' HP1 IH1 HP2 IH2]; intros r1 H.
  - exists r1. split; [exact H | apply Permutation_refl].
  - simpl in H. bind_inv H b Hb. bind_inv H bs Hbs. injection H as <-.
    destruct (IH _ Hbs) as [r2 [E2 P2]].
    exists (b :: r2). simpl. rewrite Hb. simpl. rewrite E2. simpl.
    split; [reflexivity | apply perm_skip; exact P2].
  - simpl in H. bind_inv H b Hb. bind_inv H bs' H'. injection H as <-.
    bind_inv H' a Ha. bind_inv H' bs Hbs. injection H' as <-.
    exists (a :: b :: bs). simpl. rewrite Ha. simpl. rewrite Hb. simpl.
    rewrite Hbs. simpl. split; [reflexivity | apply perm_swap].
  - destruct (IH1 _ H) as [r2 [E2 P2]]. destruct (IH2 _ E2) as [r3 [E3 P3]].
    exists r3. split; [exact E3 | apply perm_trans with r2; assumption].
Qed.

Lemma mapM_Raise_In {A B : Type} (f : A -> result B) (l : list A) (e : exn) :
  mapM f l = Raise e -> exists x, In x l /\ f x = Raise e.
Proof.
  induction l as [|x t IH]; simpl; intros H.
  - discriminate.
  - destruct (f x) as [y|e'] eqn:E; simpl in H.
    + destruct (mapM f t) as [ys|e''] eqn:E'; simpl in H; [discriminate|].
      injection H as ->. destruct (IH eq_refl) as [z [Hz Hf]].
      exists z. split; [right; exact Hz | exact Hf].
    + injection H as ->. exists x. split; [left; reflexivity | exact E].
Qed.

(** [_prepare_wizard_line] fails on the window alone, not on the entry. *)
Lemma prepare_Raise_indep (db : database) (self : PurchasePlanning)
    (v v' : vals) (e : exn) :
  _prepare_wizard_line db self v = Raise e ->
  _prepare_wizard_line db self v' = Raise e.
Proof.
  unfold _prepare_wizard_line.
  destruct (_get_total_days self) as [d|e']; simpl; [|intros H; exact H].
  unfold py_div. destruct (d =? 0); simpl; [intros H; exact H | discriminate].
Qed.

Lemma prepare_total (db : database) (self : PurchasePlanning) (v : vals) (d : Z) :
  _get_total_days self = OK d -> d <> 0 ->
  exists row, _prepare_wizard_line db self v = OK row.
Proof.
  intros Hd Hnz. unfold _prepare_wizard_line. rewrite Hd. simpl.
  unfold py_div. apply Z.eqb_neq in Hnz. rewrite Hnz. simpl.
  eexists. reflexivity.
Qed.

Lemma prepare_OK_inv (db : database) (self : PurchasePlanning) (v : vals)
    (row : PurchasePlanningLine) :
  _prepare_wizard_line db self v = OK row ->
  exists d, _get_total_days self = OK d /\ d <> 0
    /\ l_product_id row = v_product_id v
    /\ l_times_received row = getZ (v_times_received v)
    /\ l_units_received row = getQ (v_qty_received v)
    /\ l_times_delivered row = getZ (v_times_delivered v)
    /\ l_units_delivered row = getQ (v_qty_delivered v)
    /\ l_units_avg_delivered row = (getQ (v_qty_delivered v) / inject_Z d)%Q
    /\ l_price_unit row
       = seller_price (select_seller db (v_product_id v) (partner_id self))
    /\ l_currency_id row
       = seller_currency_id (select_seller db (v_product_id v) (partner_id self))
    /\ l_partner_id row
       = seller_name_id (select_seller db (v_product_id v) (partner_id self)).
Proof.
  unfold _prepare_wizard_line.
  destruct (_get_total_days self) as [d|e]; simpl; [|discriminate].
  unfold py_div. destruct (d =? 0) eqn:E; simpl; [discriminate|].
  intros H. injection H as <-. exists d. apply Z.eqb_neq in E.
  repeat split; try reflexivity. exact E.
Qed.

Lemma mapM_total {A B : Type} (f : A -> result B) (l : list A) :
  (forall x, In x l -> exists y, f x = OK y) -> exists r, mapM f l = OK r.
Proof.
  induction l as [|x t IH]; simpl; intros H.
  - eexists. reflexivity.
  - destruct (H x (or_introl eq_refl)) as [y Hy]. rewrite Hy. simpl.
    destruct IH as [r Hr]; [intros z Hz; apply H; right; exact Hz|].
    rewrite Hr. simpl. eexists. reflexivity.
Qed.

(** ** The action *)

Section Action.
Variable order : list group -> list group.
Hypothesis order_Permutation : forall l, Permutation (order l) l.

(** What a completed invocation leaves in the table: the rows prepared, in
    order, from the entries of the merged dictionary. *)
Lemma show_results_with_inv (db : database) (self : PurchasePlanning)
    (table table' : list PurchasePlanningLine) :
  show_results_with order db self table = OK table' ->
  exists fd,
    merged_with order db self = OK fd
    /\ NoDup (dict_keys fd)
    /\ (forall p, dict_get p fd
                  = merged_entry
                      (aggregate_entry db self "supplier" "internal" p)
                      (aggregate_entry db self "internal" "customer" p))
    /\ Forall2 (fun kv row => _prepare_wizard_line db self (snd kv) = OK row)
               fd table'.
Proof.
  unfold show_results_with, unlink_all. intros H.
  destruct (merged_with_spec order order_Permutation db self) as [fd [E [N G]]].
  rewrite E in H. simpl in H. rewrite create_lines_mapM in H.
  bind_inv H rows Hrows. simpl in H. injection H as <-.
  exists fd. repeat split; try assumption.
  apply mapM_Forall2. exact Hrows.
Qed.

(** The action completes whenever the window has a number of days other
    than zero. *)
Lemma show_results_with_total (db : database) (self : PurchasePlanning)
    (table : list PurchasePlanningLine) (d : Z) :
  _get_total_days self = OK d -> d <> 0 ->
  exists table', show_results_with order db self table = OK table'.
Proof.
  intros Hd Hnz. unfold show_results_with, unlink_all.
  destruct (merged_with_spec order order_Permutation db self) as [fd [E _]].
  rewrite E. simpl. rewrite create_lines_mapM.
  destruct (mapM_total (fun kv => _prepare_wizard_line db self (snd kv)) fd)
    as [rows Hrows].
  - intros x _. apply (prepare_total db self (snd x) d); assumption.
  - rewrite Hrows. simpl. eexists. reflexivity.
Qed.

(** The previous content of the table plays no part. *)
Lemma show_results_with_fresh (db : database) (self : PurchasePlanning)
    (table1 table2 : list PurchasePlanningLine) :
  show_results_with order db self table1 = show_results_with order db self table2.
Proof. reflexivity. Qed.
End Action.

Lemma Forall2_keys_products (db : database) (self : PurchasePlanning)
    (fd : dict vals) (rows : list PurchasePlanningLine) :
  (forall k v, In (k, v) fd -> v_product_id v = k) ->
  Forall2 (fun kv row => _prepare_wizard_line db self (snd kv) = OK row) fd rows ->
  map l_product_id rows = dict_keys fd.
Proof.
  intros Hk H. induction H as [|[k v] row t rows' Hrow Hrest IH]; simpl.
  - reflexivity.
  - f_equal.
    + apply prepare_OK_inv in Hrow.
      destruct Hrow as [d [_ [_ [Hp _]]]]. simpl in Hp. rewrite Hp.
      apply Hk. left. reflexivity.
    + apply IH. intros k' v' Hin. apply Hk. right. exact Hin.
Qed.

Lemma Forall2_In_left {A B : Type} (R : A -> B -> Prop) (l : list A) (r : list B) (x : A) :
  Forall2 R l r -> In x l -> exists y, In y r /\ R x y.
Proof.
  induction 1 as [|a b l' r' Hab Hrest IH]; simpl; intros Hin.
  - contradiction.
  - destruct Hin as [->|Hin].
    + exists b. split; [left; reflexivity | exact Hab].
    + destruct (IH Hin) as [y [Hy Hxy]]. exists y. split; [right; exact Hy | exact Hxy].
Qed.

Lemma Forall2_In_right {A B : Type} (R : A -> B -> Prop) (l : list A) (r : list B) (y : B) :
  Forall2 R l r -> In y r -> exists x, In x l /\ R x y.
Proof.
  induction 1 as [|a b l' r' Hab Hrest IH]; simpl; intros Hin.
  - contradiction.
  - destruct Hin as [->|Hin].
    + exists a. split; [left; reflexivity | exact Hab].
    + destruct (IH Hin) as [x [Hx Hxy]]. exists x. split; [right; exact Hx | exact Hxy].
Qed.

Lemma merged_dict_product (db : database) (self : PurchasePlanning) (fd : dict vals) :
  (forall p, dict_get p fd
             = merged_entry
                 (aggregate_entry db self "supplier" "internal" p)
                 (aggregate_entry db self "internal" "customer" p)) ->
  NoDup (dict_keys fd) ->
  forall k v, In (k, v) fd -> v_product_id v = k.
Proof.
  intros G N k v Hin. apply dict_In_get in Hin; [|exact N].
  rewrite G in Hin. apply merged_entry_product with (p := k) in Hin; [exact Hin| |].
  - intros e He. apply aggregate_entry_product in He. exact He.
  - intros e He. apply aggregate_entry_product in He. exact He.
Qed.

(** A row of the report, traced back to the merged entry of its product. *)
Lemma row_of_product (db : database) (self : PurchasePlanning)
    (fd : dict vals) (rows : list PurchasePlanningLine) :
  (forall k v, In (k, v) fd -> v_product_id v = k) ->
  NoDup (dict_keys fd) ->
  Forall2 (fun kv row => _prepare_wizard_line db self (snd kv) = OK row) fd rows ->
  NoDup (map l_product_id rows)
  /\ (forall p, In p (map l_product_id rows) <-> In p (dict_keys fd))
  /\ (forall p v, dict_get p fd = Some v ->
        exists row, In row rows /\ _prepare_wizard_line db self v = OK row
                    /\ forall row', In row' rows -> l_product_id row' = p -> row' = row).
Proof.
  intros Hk N F.
  pose proof (Forall2_keys_products db self fd rows Hk F) as Hmap.
  split; [rewrite Hmap; exact N|].
  split; [intros p; rewrite Hmap; reflexivity|].
  intros p v Hget. apply dict_get_Some_In in Hget.
  destruct (Forall2_In_left _ _ _ _ F Hget) as [row [Hrow Hprep]].
  simpl in Hprep. exists row. repeat split; try assumption.
  intros row' Hrow' Hp'.
  destruct (Forall2_In_right _ _ _ _ F Hrow') as [[k' v'] [Hin' Hprep']].
  simpl in Hprep'.
  assert (Hk' : k' = p).
  { pose proof (Hk _ _ Hin') as E. apply prepare_OK_inv in Hprep'.
    destruct Hprep' as [d [_ [_ [Hp _]]]]. congruence. }
  subst k'.
  assert (Hv : v' = v).
  { apply dict_In_get in Hin'; [|exact N]. apply dict_In_get in Hget; [|exact N].
    congruence. }
  subst v'. congruence.
Qed.

(** * The properties of the specification *)

(** ** C1: the number of days of the window *)

Lemma get_total_days_value (self : PurchasePlanning) :
  valid_date (date_begin self) ->
  date_begin self <= date_end self + 1 ->
  date_end self < MAXORDINAL ->
  _get_total_days self
  = OK (date_sub_days (date_end self) (date_begin self) + 1).
Proof.
  unfold valid_date, _get_total_days, date_add_days, date_sub_days.
  intros [Hb _] Hle Hmax.
  assert (E1 : (1 <=? date_end self + 1) = true) by (apply Z.leb_le; lia).
  assert (E2 : (date_end self + 1 <=? MAXORDINAL) = true) by (apply Z.leb_le; lia).
  rewrite E1, E2. simpl. f_equal. lia.
Qed.

(** C1 (counterexample). The specification says that every request has
    [total_days >= 1] and never divides by zero.  A window that ends the day
    before it begins is accepted by the wizard, has [total_days = 0], and
    preparing any row raises [ZeroDivisionError]. *)
Lemma C1_counterexample :
  valid_date (date_begin self_reversed)
  /\ valid_date (date_end self_reversed)
  /\ _get_total_days self_reversed = OK 0
  /\ _prepare_wizard_line db_example self_reversed (vals_of_product 1)
     = Raise ZeroDivisionError
  /\ ~ window_days_safe self_reversed.
Proof.
  split; [unfold valid_date, MAXORDINAL; simpl; lia|].
  split; [unfold valid_date, MAXORDINAL; simpl; lia|].
  split; [reflexivity|]. split; [reflexivity|].
  intros [d [Hd [_ [Hge _]]]].
  assert (E : _get_total_days self_reversed = OK 0) by reflexivity.
  rewrite E in Hd. injection Hd as <-. lia.
Qed.

(** C1 (amended). For every request whose start date is not after its end
    date (and whose end date is before [date.max], so that the day after it
    exists), [total_days = (date_end - date_begin).days + 1] is at least 1
    and every row's [units_avg_delivered] is [qty_delivered / total_days],
    computed without dividing by zero. *)
Theorem C1_total_days_positive (self : PurchasePlanning) :
  valid_date (date_begin self) ->
  date_begin self <= date_end self ->
  date_end self < MAXORDINAL ->
  window_days_safe self.
Proof.
  intros Hv Hle Hmax.
  exists (date_sub_days (date_end self) (date_begin self) + 1).
  split; [apply get_total_days_value; [exact Hv | lia | exact Hmax]|].
  split; [reflexivity|].
  assert (Hpos : 1 <= date_sub_days (date_end self) (date_begin self) + 1)
    by (unfold date_sub_days; lia).
  split; [exact Hpos|].
  intros db v. unfold _prepare_wizard_line.
  rewrite get_total_days_value; [|exact Hv | lia | exact Hmax]. simpl.
  unfold py_div.
  assert (E : (date_sub_days (date_end self) (date_begin self) + 1 =? 0) = false)
    by (apply Z.eqb_neq; lia).
  rewrite E. simpl. eexists. split; reflexivity.
Qed.

Lemma C1_total_days_positive_witness : window_days_safe self_example.
Proof.
  apply (C1_total_days_positive self_example).
  - unfold valid_date, MAXORDINAL. simpl. lia.
  - simpl. lia.
  - unfold MAXORDINAL. simpl. lia.
Defined.

(** ** C5: the onchange handler *)

(** C5. Once [show_all_products] is enabled, the handler leaves
    [show_all_partner_products] false and the vendor empty, so that the two
    flags are not both set after it; the other fields keep their values. *)
Theorem C5_onchange_exclusive (self : PurchasePlanning) :
  show_all_products self = true ->
  show_all_partner_products (onchange_show_all_products self) = false
  /\ partner_id (onchange_show_all_products self) = None
  /\ show_all_products (onchange_show_all_products self) = true
  /\ (show_all_products (onchange_show_all_products self)
      && show_all_partner_products (onchange_show_all_products self)) = false
  /\ date_begin (onchange_show_all_products self) = date_begin self
  /\ date_end (onchange_show_all_products self) = date_end self
  /\ product_category_ids (onchange_show_all_products self) = product_category_ids self
  /\ warehouse_ids (onchange_show_all_products self) = warehouse_ids self.
Proof.
  intros H. unfold onchange_show_all_products. rewrite H. simpl.
  repeat split; reflexivity.
Qed.

Lemma C5_onchange_exclusive_witness :
  show_all_partner_products (onchange_show_all_products self_both_flags) = false
  /\ partner_id (onchange_show_all_products self_both_flags) = None.
Proof.
  destruct (C5_onchange_exclusive self_both_flags eq_refl) as [H1 [H2 _]].
  split; [exact H1 | exact H2].
Defined.

(** The handler never leaves both flags set, whatever the flag was. *)
Lemma onchange_never_both (self : PurchasePlanning) :
  show_all_products self = false \/ show_all_partner_products (onchange_show_all_products self) = false.
Proof.
  unfold onchange_show_all_products.
  destruct (show_all_products self) eqn:E; [right; reflexivity | left; reflexivity].
Qed.

(** ** C2: the movement query *)

Lemma domain_eval (self : PurchasePlanning) (products : list Z)
    (src dst : string) (m : move_line) :
  eval_move_domain (_get_move_line_domain self products src dst) m = true <->
  ml_state m = "done"%string
  /\ In (ml_product_id m) products
  /\ combine_min (date_begin self) <= ml_date m <= combine_max (date_end self)
  /\ ml_location_usage m = src
  /\ ml_location_dest_usage m = dst
  /\ (warehouse_ids self <> [] ->
      exists w, ml_warehouse_id m = Some w /\ In w (warehouse_ids self)).
Proof.
  unfold eval_move_domain, _get_move_line_domain.
  destruct (warehouse_ids self) as [|w0 ws] eqn:W;
    cbn [nonempty app forallb eval_move_leaf];
    rewrite ?andb_true_iff, ?String.eqb_eq, ?Z.leb_le, ?mem_In.
  - split.
    + intros [Hp [Hge [Hle [Hs [Hd [Hst _]]]]]].
      repeat split; try assumption. intros Hne. exfalso. apply Hne. reflexivity.
    + intros [Hst [Hp [[Hge Hle] [Hs [Hd _]]]]]. repeat split; assumption.
  - split.
    + intros [Hp [Hge [Hle [Hs [Hd [Hst [Hw _]]]]]]].
      repeat split; try assumption. intros _.
      destruct (ml_warehouse_id m) as [w|]; [|discriminate].
      exists w. split; [reflexivity | apply mem_In; exact Hw].
    + intros [Hst [Hp [[Hge Hle] [Hs [Hd Hw]]]]].
      repeat split; try assumption.
      destruct Hw as [w [Ew Hin]]; [discriminate|].
      rewrite Ew. apply mem_In. exact Hin.
Qed.

(** C2 (counterexample). The specification lets the query range over every
    purchasable product once [show_all_products] is set.  In the sample
    database product 3 is purchasable, listed by the show-all expansion,
    and has a completed delivery inside the window; the query does not
    select that movement, and the aggregate shows product 3 without any
    count or quantity. *)
Lemma C2_counterexample :
  In 3 (shown_products db_example self_show_all)
  /\ selected_moves db_example self_show_all "internal" "customer" = []
  /\ _find_move_line db_example self_show_all "internal" "customer"
     = OK [(1, vals_of_product 1); (2, vals_of_product 2); (3, vals_of_product 3)]
  /\ ~ query_contract (shown_products db_example self_show_all)
         db_example self_show_all "internal" "customer".
Proof.
  split; [vm_compute; tauto|]. split; [reflexivity|]. split; [reflexivity|].
  intros H.
  specialize (H (delivery 3 (combine_min 738001) "done" 5)).
  destruct H as [_ H]; [vm_compute; tauto|].
  assert (E : selected_moves db_example self_show_all "internal" "customer" = [])
    by reflexivity.
  rewrite E in H. apply H. repeat split.
  - vm_compute. tauto.
  - vm_compute. discriminate.
  - vm_compute. discriminate.
  - intros Hne. exfalso. apply Hne. reflexivity.
Qed.

(** C2 (amended). The aggregator selects the completed movements whose
    product is among the vendor's products after the category filter
    ([_get_products], whatever [show_all_products] says), whose timestamp
    lies between the start of the start date and the end of the end date,
    both included, whose source and destination location kinds are the
    given pair and, when warehouses are selected, whose transfer belongs
    to one of them.  It never fails; each product with a selected movement
    gets the number of its selected movements and the sum of their
    quantities done, any other entry carries no figure. *)
Theorem C2_movement_query (db : database) (self : PurchasePlanning)
    (src dst : string) :
  query_contract (_get_products db self) db self src dst
  /\ exists d,
       _find_move_line db self src dst = OK d
       /\ forall p,
            (In p (map ml_product_id (selected_moves db self src dst)) ->
             exists e,
               dict_get p d = Some e
               /\ v_product_id_count e
                  = Some (Z.of_nat (List.length (moves_of db self src dst p)))
               /\ v_qty_done e
                  = Some (Qsum (map ml_qty_done (moves_of db self src dst p))))
            /\ (~ In p (map ml_product_id (selected_moves db self src dst)) ->
                forall e, dict_get p d = Some e -> e = vals_of_product p).
Proof.
  split.
  - intros m Hm. unfold selected_moves. rewrite search_move_lines_In, domain_eval.
    tauto.
  - destruct (find_move_line_with_spec (sorted key_ge) (sorted_Permutation key_ge)
                db self src dst) as [d [E [_ G]]].
    exists d. split; [exact E|]. intros p. split.
    + intros Hin. rewrite G. unfold aggregate_entry.
      apply mem_In in Hin. rewrite Hin.
      eexists. split; [reflexivity|]. split; reflexivity.
    + intros Hnot e. rewrite G. unfold aggregate_entry.
      apply mem_nil_false in Hnot. rewrite Hnot.
      destruct (_ && _); [|discriminate].
      intros H. injection H as <-. reflexivity.
Qed.

(** ** C8: no vendor, no purchasable products shown *)

Lemma get_products_no_vendor (db : database) (self : PurchasePlanning) :
  partner_id self = None -> _get_products db self = [].
Proof.
  intros H. unfold _get_products, _get_supplier_products. rewrite H. simpl.
  destruct (nonempty (product_category_ids self)); reflexivity.
Qed.

Lemma dict_all_None {V : Type} (d : dict V) :
  (forall p, dict_get p d = None) -> d = [].
Proof.
  destruct d as [|[k v] t]; intros H; [reflexivity|].
  specialize (H k). simpl in H. rewrite Z.eqb_refl in H. discriminate.
Qed.

Lemma aggregate_entry_no_products (db : database) (self : PurchasePlanning)
    (src dst : string) (p : Z) :
  _get_products db self = [] -> show_all_products self = false ->
  aggregate_entry db self src dst p = None.
Proof.
  intros Hp Hs. unfold aggregate_entry.
  destruct (mem p (map ml_product_id (selected_moves db self src dst))) eqn:M.
  - apply mem_In, selected_moves_products in M. rewrite Hp in M. contradiction.
  - unfold shown_products. rewrite Hs, Hp. simpl.
    rewrite andb_false_r. reflexivity.
Qed.

(** C8. Without a vendor and with [show_all_products] off, the candidate
    products are none and the action completes with an empty report,
    whatever [show_all_partner_products] and the previous rows are. *)
Theorem C8_no_vendor_empty_report (db : database) (self : PurchasePlanning)
    (table : list PurchasePlanningLine) :
  partner_id self = None ->
  show_all_products self = false ->
  _get_products db self = []
  /\ action_show_results db self table = OK [].
Proof.
  intros Hv Hs.
  pose proof (get_products_no_vendor db self Hv) as Hp.
  split; [exact Hp|].
  unfold action_show_results, show_results_with, unlink_all.
  destruct (merged_with_spec (sorted key_ge) (sorted_Permutation key_ge) db self)
    as [fd [E [_ G]]].
  rewrite E. simpl.
  assert (Hfd : fd = []).
  { apply dict_all_None. intros p. rewrite G.
    rewrite !aggregate_entry_no_products by assumption. reflexivity. }
  rewrite Hfd. reflexivity.
Qed.

Lemma C8_no_vendor_empty_report_witness :
  _get_products db_example self_no_vendor = []
  /\ action_show_results db_example self_no_vendor [] = OK [].
Proof.
  apply (C8_no_vendor_empty_report db_example self_no_vendor []); reflexivity.
Defined.

(** ** C10: the merge leaves the received figures alone *)

Lemma same_but_delivered_refl (e : vals) : same_but_delivered e e.
Proof. unfold same_but_delivered. repeat split; reflexivity. Qed.

Lemma same_but_delivered_trans (e1 e2 e3 : vals) :
  same_but_delivered e1 e2 -> same_but_delivered e2 e3 -> same_but_delivered e1 e3.
Proof.
  unfold same_but_delivered.
  intros [A1 [A2 [A3 [A4 [A5 A6]]]]] [B1 [B2 [B3 [B4 [B5 B6]]]]].
  repeat split; congruence.
Qed.

Lemma merge_step_frame (fd : dict vals) (item : Z * vals) (p : Z) (e : vals) :
  dict_get p fd = Some e ->
  exists e', dict_get p (merge_step fd item) = Some e' /\ same_but_delivered e e'.
Proof.
  intros H. destruct item as [k line]. destruct (Z.eq_dec k p) as [->|Hne].
  - rewrite merge_step_get_eq, H. eexists. split; [reflexivity|].
    unfold same_but_delivered. simpl. repeat split; reflexivity.
  - rewrite merge_step_get_neq by exact Hne.
    exists e. split; [exact H | apply same_but_delivered_refl].
Qed.

(** C10. An entry that the dictionary holds before the delivered aggregate
    is merged in is still there afterwards, with the same [qty_received]
    and [times_received] (and the same other keys): the merge writes only
    [qty_delivered] and [times_delivered]. *)
Theorem C10_merge_frame (found_dict found_delivered_dict : dict vals)
    (p : Z) (e : vals) :
  dict_get p found_dict = Some e ->
  exists e',
    dict_get p (merge_delivered found_dict found_delivered_dict) = Some e'
    /\ v_qty_received e' = v_qty_received e
    /\ v_times_received e' = v_times_received e
    /\ same_but_delivered e e'.
Proof.
  unfold merge_delivered. revert found_dict e.
  induction found_delivered_dict as [|item t IH]; simpl; intros fd e H.
  - exists e. split; [exact H|]. split; [reflexivity|]. split; [reflexivity|].
    apply same_but_delivered_refl.
  - destruct (merge_step_frame fd item p e H) as [e1 [H1 S1]].
    destruct (IH _ _ H1) as [e2 [H2 [_ [_ S2]]]].
    exists e2. split; [exact H2|].
    pose proof (same_but_delivered_trans _ _ _ S1 S2) as S.
    split; [apply S|]. split; [apply S | exact S].
Qed.

Lemma C10_merge_frame_witness :
  exists e',
    dict_get 2 (merge_delivered
                  (annotate_received [(2, line_of_group (group_of [receipt 2 0 "done" 10] 2))])
                  [(1, vals_of_product 1); (2, vals_of_product 2)]) = Some e'
    /\ v_qty_received e' = Some 10%Q
    /\ v_times_received e' = Some 1.
Proof.
  destruct (C10_merge_frame
              (annotate_received [(2, line_of_group (group_of [receipt 2 0 "done" 10] 2))])
              [(1, vals_of_product 1); (2, vals_of_product 2)] 2 _ eq_refl)
    as [e' [H1 [H2 [H3 _]]]].
  exists e'. split; [exact H1|]. split; [exact H2 | exact H3].
Defined.

(** ** The rows of a completed invocation *)

Lemma dict_keys_get {V : Type} (d : dict V) (k : Z) :
  In k (dict_keys d) <-> dict_get k d <> None.
Proof.
  destruct (dict_get k d) eqn:E.
  - split; [intros _; discriminate | intros _].
    apply dict_mem_In. unfold dict_mem. rewrite E. reflexivity.
  - apply dict_get_None in E. split; [contradiction | intros H; exfalso; apply H; reflexivity].
Qed.

(** The entries of an aggregate carry no received or delivered key yet. *)
Lemma aggregate_entry_fresh (db : database) (self : PurchasePlanning)
    (src dst : string) (p : Z) (v : vals) :
  aggregate_entry db self src dst p = Some v ->
  v_qty_received v = None /\ v_times_received v = None
  /\ v_qty_delivered v = None /\ v_times_delivered v = None.
Proof.
  unfold aggregate_entry.
  destruct (mem p _); [intros H; injection H as <-; repeat split|].
  destruct (_ && _); [intros H; injection H as <-; repeat split | discriminate].
Qed.

Lemma merged_entry_fields (received delivered : option vals) (v : vals) :
  (forall e, received = Some e ->
     v_qty_delivered e = None /\ v_times_delivered e = None) ->
  (forall e, delivered = Some e ->
     v_qty_received e = None /\ v_times_received e = None) ->
  merged_entry received delivered = Some v ->
  getZ (v_times_received v)
  = match received with Some e => getZ (v_product_id_count e) | None => 0 end
  /\ getQ (v_qty_received v)
     = match received with Some e => getQ (v_qty_done e) | None => 0%Q end
  /\ getZ (v_times_delivered v)
     = match delivered with Some e => getZ (v_product_id_count e) | None => 0 end
  /\ getQ (v_qty_delivered v)
     = match delivered with Some e => getQ (v_qty_done e) | None => 0%Q end.
Proof.
  intros Hr Hd. unfold merged_entry.
  destruct delivered as [line|]; destruct received as [entry|]; simpl; intros H;
    try discriminate; injection H as <-; simpl.
  - repeat split; reflexivity.
  - destruct (Hd line eq_refl) as [E1 E2]. rewrite E1, E2. repeat split; reflexivity.
  - destruct (Hr entry eq_refl) as [E1 E2]. rewrite E1, E2. repeat split; reflexivity.
Qed.

Section Rows.
Variable order : list group -> list group.
Hypothesis order_Permutation : forall l, Permutation (order l) l.

Lemma find_move_line_with_get (db : database) (self : PurchasePlanning)
    (src dst : string) (d : dict vals) :
  find_move_line_with order db self src dst = OK d ->
  NoDup (dict_keys d) /\ forall p, dict_get p d = aggregate_entry db self src dst p.
Proof.
  intros H.
  destruct (find_move_line_with_spec order order_Permutation db self src dst)
    as [d' [E [N G]]].
  rewrite E in H. injection H as <-. split; assumption.
Qed.

(** One row per key of the two aggregates, carrying the figures of both. *)
Lemma action_rows (db : database) (self : PurchasePlanning)
    (table table' : list PurchasePlanningLine) (received delivered : dict vals) :
  find_move_line_with order db self "supplier" "internal" = OK received ->
  find_move_line_with order db self "internal" "customer" = OK delivered ->
  show_results_with order db self table = OK table' ->
  NoDup (map l_product_id table')
  /\ (forall p, In p (map l_product_id table') <->
                In p (dict_keys received) \/ In p (dict_keys delivered))
  /\ (forall p, In p (dict_keys received) \/ In p (dict_keys delivered) ->
        exists row d,
          In row table' /\ l_product_id row = p
          /\ (forall row', In row' table' -> l_product_id row' = p -> row' = row)
          /\ l_times_received row = times_of received p
          /\ l_units_received row = units_of received p
          /\ l_times_delivered row = times_of delivered p
          /\ l_units_delivered row = units_of delivered p
          /\ _get_total_days self = OK d /\ d <> 0
          /\ l_units_avg_delivered row = (units_of delivered p / inject_Z d)%Q).
Proof.
  intros Hr Hd H.
  destruct (find_move_line_with_get db self _ _ _ Hr) as [Nr Gr].
  destruct (find_move_line_with_get db self _ _ _ Hd) as [Nd Gd].
  destruct (show_results_with_inv order order_Permutation db self table table' H)
    as [fd [_ [N [G F]]]].
  pose proof (merged_dict_product db self fd G N) as Hk.
  destruct (row_of_product db self fd table' Hk N F) as [R1 [R2 R3]].
  assert (Hkeys : forall p, In p (dict_keys fd) <->
                            In p (dict_keys received) \/ In p (dict_keys delivered)).
  { intros p. rewrite !dict_keys_get, G, Gr, Gd. unfold merged_entry.
    destruct (aggregate_entry db self "internal" "customer" p);
      destruct (aggregate_entry db self "supplier" "internal" p); simpl;
      split; intros X;
      first [ discriminate | left; discriminate | right; discriminate
            | exfalso; apply X; reflexivity
            | destruct X as [X|X]; exfalso; apply X; reflexivity ]. }
  split; [exact R1|]. split; [intros p; rewrite R2; apply Hkeys|].
  intros p Hp. apply Hkeys in Hp. apply dict_keys_get in Hp.
  destruct (dict_get p fd) as [v|] eqn:Ev; [|exfalso; apply Hp; reflexivity].
  destruct (R3 p v Ev) as [row [Hin [Hprep Huniq]]].
  pose proof Hprep as Hprep'. apply prepare_OK_inv in Hprep'.
  destruct Hprep' as [d [Hdays [Hnz [Hpid [Htr [Hur [Htd [Hud [Havg _]]]]]]]]].
  rewrite G in Ev.
  assert (Hfields := merged_entry_fields
                       (aggregate_entry db self "supplier" "internal" p)
                       (aggregate_entry db self "internal" "customer" p) v).
  destruct Hfields as [F1 [F2 [F3 F4]]]; [| |exact Ev|].
  { intros e He. apply aggregate_entry_fresh in He. split; apply He. }
  { intros e He. apply aggregate_entry_fresh in He. split; apply He. }
  exists row, d. unfold times_of, units_of. rewrite Gr, Gd.
  split; [exact Hin|]. split; [rewrite Hpid; apply (Hk p v), dict_get_Some_In;
                                 rewrite G; exact Ev|].
  split; [exact Huniq|].
  split; [rewrite Htr; exact F1|]. split; [rewrite Hur; exact F2|].
  split; [rewrite Htd; exact F3|]. split; [rewrite Hud; exact F4|].
  split; [exact Hdays|]. split; [exact Hnz|].
  rewrite Havg, F4. reflexivity.
Qed.
End Rows.

(** The action completes whenever the window has a number of days other
    than zero; a window of zero days aborts it as soon as there is a row to
    prepare. *)
Lemma action_show_results_completes (db : database) (self : PurchasePlanning)
    (table : list PurchasePlanningLine) (d : Z) :
  _get_total_days self = OK d -> d <> 0 ->
  exists table', action_show_results db self table = OK table'.
Proof.
  apply (show_results_with_total (sorted key_ge) (sorted_Permutation key_ge)).
Qed.

Example action_show_results_reversed :
  action_show_results db_example self_reversed [] = Raise ZeroDivisionError.
Proof. reflexivity. Qed.

Example get_total_days_last_day :
  valid_date (date_end self_last_day)
  /\ _get_total_days self_last_day = Raise OverflowError.
Proof. split; [unfold valid_date; simpl; unfold MAXORDINAL; lia | reflexivity]. Qed.

(** ** C3: one row per product *)

(** C3. The action completes whenever the window has a number of days
    other than zero.  After it, the report has no two rows for the same
    product; its rows are those of the products of the received aggregate
    and of the delivered aggregate (each of which holds the products shown
    without movement when a show-all flag is set); the row of such a
    product is unique; its received count and quantity are those stored
    in the product's entry of the received aggregate, its delivered count
    and quantity those of the entry of the delivered aggregate, and each
    is zero when the aggregate has no entry for the product or the entry
    has no such figure. *)
Theorem C3_one_row_per_product (db : database) (self : PurchasePlanning)
    (table : list PurchasePlanningLine) (received delivered : dict vals) :
  _find_move_line db self "supplier" "internal" = OK received ->
  _find_move_line db self "internal" "customer" = OK delivered ->
  (forall d, _get_total_days self = OK d -> d <> 0 ->
     exists table', action_show_results db self table = OK table')
  /\ forall table',
       action_show_results db self table = OK table' ->
       NoDup (map l_product_id table')
       /\ (forall p, In p (map l_product_id table') <->
                     In p (dict_keys received) \/ In p (dict_keys delivered))
       /\ (forall p,
             (show_all_partner_products self || show_all_products self) = true ->
             In p (shown_products db self) ->
             In p (dict_keys received) /\ In p (dict_keys delivered))
       /\ (forall p, In p (dict_keys received) \/ In p (dict_keys delivered) ->
             exists row,
               In row table' /\ l_product_id row = p
               /\ (forall row', In row' table' -> l_product_id row' = p -> row' = row)
               /\ l_times_received row
                  = match dict_get p received with
                    | Some e =>
                        match v_product_id_count e with Some c => c | None => 0 end
                    | None => 0
                    end
               /\ l_units_received row
                  = match dict_get p received with
                    | Some e =>
                        match v_qty_done e with Some q => q | None => 0%Q end
                    | None => 0%Q
                    end
               /\ l_times_delivered row
                  = match dict_get p delivered with
                    | Some e =>
                        match v_product_id_count e with Some c => c | None => 0 end
                    | None => 0
                    end
               /\ l_units_delivered row
                  = match dict_get p delivered with
                    | Some e =>
                        match v_qty_done e with Some q => q | None => 0%Q end
                    | None => 0%Q
                    end).
Proof.
  intros Hr Hd. split.
  { intros d Hdays Hnz.
    apply (show_results_with_total (sorted key_ge) (sorted_Permutation key_ge)
             db self table d Hdays Hnz). }
  intros table' H.
  destruct (action_rows (sorted key_ge) (sorted_Permutation key_ge)
              db self table table' received delivered Hr Hd H) as [R1 [R2 R3]].
  split; [exact R1|]. split; [exact R2|]. split.
  - intros p Hflag Hp.
    destruct (find_move_line_with_get _ (sorted_Permutation key_ge) db self _ _ _ Hr)
      as [_ Gr].
    destruct (find_move_line_with_get _ (sorted_Permutation key_ge) db self _ _ _ Hd)
      as [_ Gd].
    apply mem_In in Hp.
    split; apply dict_keys_get; [rewrite Gr | rewrite Gd]; unfold aggregate_entry;
      rewrite Hflag, Hp; simpl;
      destruct (mem p (map ml_product_id _)); discriminate.
  - intros p Hp. destruct (R3 p Hp) as [row [d [A [B [C [D [E [F [G _]]]]]]]]].
    unfold times_of, units_of, getZ, getQ in D, E, F, G.
    exists row. repeat split; assumption.
Qed.

Lemma C3_one_row_per_product_witness :
  NoDup (map l_product_id rows_example)
  /\ exists row,
       In row rows_example /\ l_product_id row = 2
       /\ l_times_received row = 1 /\ l_units_received row = 10%Q
       /\ l_times_delivered row = 0 /\ l_units_delivered row = 0%Q.
Proof.
  destruct (proj2 (C3_one_row_per_product db_example self_example []
                     _ _ eq_refl eq_refl)
                  rows_example eq_refl) as [H1 [_ [_ H4]]].
  split; [exact H1|].
  destruct (H4 2 (or_introl (or_introl eq_refl)))
    as [row [A [B [_ [D [E [F G]]]]]]].
  exists row. repeat split; assumption.
Defined.

(** ** C4: each invocation replaces the report *)

(** C4. The action starts from the emptied table: whatever rows an earlier
    invocation left, a completed invocation ends with the same table as on
    an empty one, and its number of rows is the number of distinct products
    of its own two aggregates. *)
Theorem C4_rows_replaced (db : database) (self : PurchasePlanning)
    (previous table' : list PurchasePlanningLine) (received delivered : dict vals) :
  _find_move_line db self "supplier" "internal" = OK received ->
  _find_move_line db self "internal" "customer" = OK delivered ->
  action_show_results db self previous = OK table' ->
  unlink_all previous = []
  /\ action_show_results db self [] = OK table'
  /\ (forall other, action_show_results db self other = OK table')
  /\ List.length table'
     = List.length (nodup Z.eq_dec (dict_keys received ++ dict_keys delivered)).
Proof.
  intros Hr Hd H.
  split; [reflexivity|]. split; [exact H|]. split; [intros other; exact H|].
  destruct (action_rows (sorted key_ge) (sorted_Permutation key_ge)
              db self previous table' received delivered Hr Hd H) as [R1 [R2 _]].
  rewrite <- (length_map l_product_id table').
  apply Permutation_length. apply NoDup_Permutation.
  - exact R1.
  - apply NoDup_nodup.
  - intros p. rewrite R2, nodup_In, in_app_iff. reflexivity.
Qed.

Lemma C4_rows_replaced_witness :
  action_show_results db_example self_example [] = OK rows_example
  /\ List.length rows_example = 2%nat.
Proof.
  destruct (C4_rows_replaced db_example self_example [row_3; row_3; row_3]
              rows_example _ _ eq_refl eq_refl eq_refl) as [_ [H1 [_ H2]]].
  split; [exact H1 | exact H2].
Defined.

(** ** C6: every product of the vendor is shown *)

Lemma mapped_m2o_In {A : Type} (f : A -> option Z) (l : list A) (p : Z) :
  In p (mapped_m2o f l) <-> exists x, In x l /\ f x = Some p.
Proof.
  unfold mapped_m2o. rewrite dedup_In, in_flat_map. split.
  - intros [x [Hx Hp]]. exists x. split; [exact Hx|].
    destruct (f x) as [i|]; simpl in Hp; [|contradiction].
    destruct Hp as [->|[]]. reflexivity.
  - intros [x [Hx Hp]]. exists x. split; [exact Hx|]. rewrite Hp. left. reflexivity.
Qed.

Lemma mapped_o2m_In (f : Z -> list Z) (l : list Z) (p : Z) :
  In p (mapped_o2m f l) <-> exists t, In t l /\ In p (f t).
Proof. unfold mapped_o2m. rewrite dedup_In, in_flat_map. reflexivity. Qed.

Lemma search_supplierinfo_In (db : database) (partner : option Z) (s : supplierinfo) :
  In s (search_supplierinfo db partner) <->
  In s (supplierinfo_table db) /\ partner = Some (si_name s).
Proof.
  unfold search_supplierinfo. destruct partner as [p|].
  - rewrite filter_In, Z.eqb_eq. split.
    + intros [H ->]. split; [exact H | reflexivity].
    + intros [H E]. injection E as ->. split; [exact H | reflexivity].
  - simpl. split; [contradiction | intros [_ E]; discriminate].
Qed.

(** The candidate products are the products of the vendor. *)
Lemma get_products_In (db : database) (self : PurchasePlanning) (p : Z) :
  In p (_get_products db self) <-> vendor_product db self p.
Proof.
  assert (Hsup : In p (_get_supplier_products db self) <->
    exists s,
      In s (supplierinfo_table db)
      /\ option_map (commercial_partner_id db) (partner_id self) = Some (si_name s)
      /\ ((si_product_id s = Some p
           /\ prod_active db p = true /\ prod_purchase_ok db p = true)
          \/ (exists t, si_product_tmpl_id s = Some t
                        /\ tmpl_active db t = true /\ tmpl_purchase_ok db t = true
                        /\ In p (product_variant_ids db t)))).
  { unfold _get_supplier_products. rewrite in_app_iff, filter_In, mapped_m2o_In,
      mapped_o2m_In, andb_true_iff. split.
    - intros [[[s [Hs Hp]] [Ha Hb]]|[t [Ht Hp]]].
      + apply search_supplierinfo_In in Hs. destruct Hs as [Hs Hn].
        exists s. split; [exact Hs|]. split; [exact Hn|]. left. tauto.
      + apply filter_In in Ht. destruct Ht as [Ht Hab].
        apply andb_true_iff in Hab.
        apply mapped_m2o_In in Ht. destruct Ht as [s [Hs Hst]].
        apply search_supplierinfo_In in Hs. destruct Hs as [Hs Hn].
        exists s. split; [exact Hs|]. split; [exact Hn|]. right.
        exists t. tauto.
    - intros [s [Hs [Hn [[Hp [Ha Hb]]|[t [Ht [Ha [Hb Hp]]]]]]]].
      + left. split; [|tauto]. exists s. split; [|exact Hp].
        apply search_supplierinfo_In. tauto.
      + right. exists t. split; [|exact Hp]. apply filter_In. split.
        * apply mapped_m2o_In. exists s. split; [|exact Ht].
          apply search_supplierinfo_In. tauto.
        * rewrite Ha, Hb. reflexivity. }
  unfold _get_products, vendor_product.
  destruct (product_category_ids self) as [|c cs] eqn:C; cbn [nonempty].
  - rewrite Hsup. split; [intros H; split; [exact H | left; reflexivity] | tauto].
  - rewrite filter_In, Hsup, mem_In. split.
    + intros [H Hc]. split; [exact H | right; exact Hc].
    + intros [H [Hc|Hc]]; [discriminate | tauto].
Qed.

Lemma moves_of_nil (db : database) (self : PurchasePlanning)
    (src dst : string) (p : Z) :
  moves_of db self src dst p = [] ->
  mem p (map ml_product_id (selected_moves db self src dst)) = false.
Proof.
  intros H. apply mem_nil_false. rewrite in_map_iff. intros [m [Hp Hm]].
  assert (Hin : In m (moves_of db self src dst p)).
  { unfold moves_of. apply filter_In. split; [exact Hm | apply Z.eqb_eq; exact Hp]. }
  rewrite H in Hin. contradiction.
Qed.

(** C6. With [show_all_partner_products] set and [show_all_products]
    unset, the action completes whenever the window has a number of days
    other than zero, and every product of the vendor (active and
    purchasable, within the category filter) then has its row in the
    report; when the window holds no received, respectively no delivered,
    movement of the product, the row's count and quantity on that side are
    zero. *)
Theorem C6_vendor_products_shown (db : database) (self : PurchasePlanning)
    (table : list PurchasePlanningLine) (p : Z) :
  show_all_partner_products self = true ->
  show_all_products self = false ->
  vendor_product db self p ->
  (forall d, _get_total_days self = OK d -> d <> 0 ->
     exists table', action_show_results db self table = OK table')
  /\ forall table',
       action_show_results db self table = OK table' ->
       exists row,
         In row table' /\ l_product_id row = p
         /\ (forall row', In row' table' -> l_product_id row' = p -> row' = row)
         /\ (moves_of db self "supplier" "internal" p = [] ->
             l_times_received row = 0 /\ l_units_received row = 0%Q)
         /\ (moves_of db self "internal" "customer" p = [] ->
             l_times_delivered row = 0 /\ l_units_delivered row = 0%Q
             /\ (l_units_avg_delivered row == 0)%Q).
Proof.
  intros Hflag Hall Hp. split.
  { intros d Hdays Hnz.
    apply (show_results_with_total (sorted key_ge) (sorted_Permutation key_ge)
             db self table d Hdays Hnz). }
  intros table' H. apply get_products_In in Hp.
  destruct (find_move_line_with_spec (sorted key_ge) (sorted_Permutation key_ge)
              db self "supplier" "internal") as [received [Er [_ Gr]]].
  destruct (find_move_line_with_spec (sorted key_ge) (sorted_Permutation key_ge)
              db self "internal" "customer") as [delivered [Ed [_ Gd]]].
  destruct (action_rows (sorted key_ge) (sorted_Permutation key_ge)
              db self table table' received delivered Er Ed H) as [_ [_ R3]].
  assert (Hshown : mem p (shown_products db self) = true).
  { unfold shown_products. rewrite Hall. apply mem_In. exact Hp. }
  assert (Hkey : In p (dict_keys received)).
  { apply dict_keys_get. rewrite Gr. unfold aggregate_entry.
    rewrite Hflag, Hshown. simpl.
    destruct (mem p (map ml_product_id _)); discriminate. }
  destruct (R3 p (or_introl Hkey))
    as [row [d [A [B [C [D [E [F [G [_ [_ Havg]]]]]]]]]]].
  exists row. split; [exact A|]. split; [exact B|]. split; [exact C|]. split.
  - intros Hnil. apply moves_of_nil in Hnil.
    rewrite D, E. unfold times_of, units_of. rewrite Gr. unfold aggregate_entry.
    rewrite Hnil, Hflag, Hshown. simpl. split; reflexivity.
  - intros Hnil. apply moves_of_nil in Hnil.
    assert (Hu : units_of delivered p = 0%Q).
    { unfold units_of. rewrite Gd. unfold aggregate_entry.
      rewrite Hnil, Hflag, Hshown. reflexivity. }
    rewrite F, G, Havg, Hu. unfold times_of. rewrite Gd. unfold aggregate_entry.
    rewrite Hnil, Hflag, Hshown. simpl.
    split; [reflexivity|]. split; [reflexivity|].
    unfold Qdiv. apply Qmult_0_l.
Qed.

Lemma vendor_product_example : vendor_product db_example self_example 1.
Proof. apply get_products_In. vm_compute. tauto. Qed.

Lemma C6_vendor_products_shown_witness :
  exists row, In row rows_example /\ l_product_id row = 1.
Proof.
  destruct (proj2 (C6_vendor_products_shown db_example self_example [] 1
                     eq_refl eq_refl vendor_product_example)
                  rows_example eq_refl) as [row [A [B _]]].
  exists row. split; [exact A | exact B].
Defined.

(** ** C7: a product without seller *)

(** C7. When the resolver chooses among the price list records of the
    product and no vendor sells the product, the resolver returns the empty
    recordset; the row prepared for the product has a zero price and no
    currency and no vendor; the missing seller raises nothing: the row is
    prepared whenever the window has a number of days other than zero, and
    a failure can only be that of the window. *)
Theorem C7_missing_seller (db : database) (self : PurchasePlanning) (v : vals) :
  seller_resolver_contract db ->
  unsold db (v_product_id v) ->
  select_seller db (v_product_id v) (partner_id self) = None
  /\ (forall row, _prepare_wizard_line db self v = OK row ->
        l_price_unit row = 0%Q /\ l_currency_id row = None /\ l_partner_id row = None)
  /\ (forall d, _get_total_days self = OK d -> d <> 0 ->
        exists row, _prepare_wizard_line db self v = OK row)
  /\ (forall e, _prepare_wizard_line db self v = Raise e ->
        _get_total_days self = Raise e
        \/ (_get_total_days self = OK 0 /\ e = ZeroDivisionError)).
Proof.
  intros Hc Hu.
  assert (Hnone : select_seller db (v_product_id v) (partner_id self) = None).
  { destruct (select_seller db (v_product_id v) (partner_id self)) as [s|] eqn:E;
      [|reflexivity].
    destruct (Hc _ _ _ E) as [Hin Ha]. exfalso. exact (Hu s Hin Ha). }
  split; [exact Hnone|]. split; [|split].
  - intros row H. apply prepare_OK_inv in H.
    destruct H as [d [_ [_ [_ [_ [_ [_ [_ [_ [Hp [Hcur Hv]]]]]]]]]]].
    rewrite Hp, Hcur, Hv, Hnone. repeat split; reflexivity.
  - intros d Hd Hnz. apply (prepare_total db self v d); assumption.
  - intros e. unfold _prepare_wizard_line.
    destruct (_get_total_days self) as [d|e']; simpl.
    + unfold py_div. destruct (d =? 0) eqn:E; simpl; [|discriminate].
      apply Z.eqb_eq in E. subst d. intros H. injection H as <-.
      right. split; reflexivity.
    + intros H. injection H as ->. left. reflexivity.
Qed.

Lemma db_example_resolver_contract : seller_resolver_contract db_example.
Proof.
  intros p partner s. simpl.
  destruct (p =? 1) eqn:E1; [|destruct (p =? 2) eqn:E2].
  - apply Z.eqb_eq in E1. subst p. intros H. injection H as <-.
    split; [left; reflexivity|]. right. exists 100. split; [reflexivity | left; reflexivity].
  - apply Z.eqb_eq in E2. subst p. intros H. injection H as <-.
    split; [right; left; reflexivity|]. left. reflexivity.
  - discriminate.
Qed.

Lemma db_example_unsold_3 : unsold db_example (v_product_id (vals_of_product 3)).
Proof.
  intros s [<-|[<-|[]]] [H|[t [Ht Hin]]]; simpl in *; try discriminate.
  - injection Ht as <-. simpl in Hin. destruct Hin as [H|[]]. discriminate.
  - injection Ht as <-. simpl in Hin. destruct Hin as [H|[]]. discriminate.
Qed.

Lemma C7_missing_seller_witness :
  select_seller db_example 3 (partner_id self_example) = None
  /\ exists row, _prepare_wizard_line db_example self_example (vals_of_product 3) = OK row.
Proof.
  destruct (C7_missing_seller db_example self_example (vals_of_product 3)
              db_example_resolver_contract db_example_unsold_3)
    as [H1 [_ [H3 _]]].
  split; [exact H1|].
  apply (H3 3); [reflexivity | discriminate].
Defined.

(** The example of the specification: three days, product 1 delivered
    twice for 30 units, product 2 received once for 10 units. *)
Example action_show_results_example :
  _get_total_days self_example = OK 3
  /\ action_show_results db_example self_example [] = OK rows_example
  /\ report (fun p => p) db_example self_example [] = OK (rev rows_example).
Proof. repeat split; reflexivity. Qed.

(** ** C9: the intermediate ordering and the order of the report *)

Lemma key_ge_total (x y : group) : key_ge x y = true \/ key_ge y x = true.
Proof.
  unfold key_ge.
  destruct (Z.lt_trichotomy (g_product_id_count x) (g_product_id_count y))
    as [H|[H|H]].
  - right. apply orb_true_iff. left. apply Z.ltb_lt. exact H.
  - destruct (Qlt_le_dec (g_qty_done x) (g_qty_done y)) as [Hq|Hq].
    + right. apply orb_true_iff. right. apply andb_true_iff. split.
      * apply Z.eqb_eq. exact H.
      * apply Qle_bool_iff. apply Qlt_le_weak. exact Hq.
    + left. apply orb_true_iff. right. apply andb_true_iff. split.
      * apply Z.eqb_eq. symmetry. exact H.
      * apply Qle_bool_iff. exact Hq.
  - left. apply orb_true_iff. left. apply Z.ltb_lt. exact H.
Qed.

Lemma key_ge_trans (x y z : group) :
  key_ge x y = true -> key_ge y z = true -> key_ge x z = true.
Proof.
  unfold key_ge. rewrite !orb_true_iff, !andb_true_iff, !Z.ltb_lt, !Z.eqb_eq,
    !Qle_bool_iff.
  intros [H1|[H1 Q1]] [H2|[H2 Q2]].
  - left. lia.
  - left. lia.
  - left. lia.
  - right. split; [lia|]. apply Qle_trans with (g_qty_done y); assumption.
Qed.

Lemma dict_set_new {V : Type} (k : Z) (v : V) (d : dict V) :
  ~ In k (dict_keys d) -> dict_set k v d = d ++ [(k, v)].
Proof.
  unfold dict_keys. induction d as [|[k' v'] t IH]; simpl; intros H.
  - reflexivity.
  - destruct (k' =? k) eqn:E.
    + apply Z.eqb_eq in E. exfalso. apply H. left. exact E.
    + rewrite IH; [reflexivity|]. intros Hin. apply H. right. exact Hin.
Qed.

Lemma dict_set_same {V : Type} (k : Z) (v : V) (d : dict V) :
  dict_get k d = Some v -> dict_set k v d = d.
Proof.
  induction d as [|[k' v'] t IH]; simpl; intros H.
  - discriminate.
  - destruct (k' =? k) eqn:E.
    + injection H as ->. reflexivity.
    + rewrite IH by exact H. reflexivity.
Qed.

Lemma dict_get_app {V : Type} (k : Z) (d1 d2 : dict V) :
  dict_get k (d1 ++ d2)
  = match dict_get k d1 with Some v => Some v | None => dict_get k d2 end.
Proof.
  induction d1 as [|[k' v'] t IH]; simpl.
  - reflexivity.
  - destruct (k' =? k); [reflexivity | exact IH].
Qed.

(** Assignments to keys that are all new and distinct append in order. *)
Lemma set_all_fresh {A V : Type} (key : A -> Z) (val : A -> V)
    (l : list A) (d0 : dict V) :
  NoDup (map key l) ->
  (forall x, In x l -> ~ In (key x) (dict_keys d0)) ->
  set_all key val l d0 = d0 ++ map (fun x => (key x, val x)) l.
Proof.
  revert d0. induction l as [|x t IH]; intros d0 Hnd Hnew.
  - simpl. rewrite app_nil_r. reflexivity.
  - rewrite set_all_cons. simpl in Hnd. inversion Hnd as [|? ? Hx Ht]; subst.
    rewrite dict_set_new by (apply Hnew; left; reflexivity).
    rewrite IH.
    + rewrite <- app_assoc. reflexivity.
    + exact Ht.
    + intros y Hy Hin. unfold dict_keys in Hin. rewrite map_app, in_app_iff in Hin.
      destruct Hin as [Hin|[Hin|[]]].
      * apply (Hnew y (or_intror Hy)). exact Hin.
      * simpl in Hin. apply Hx. rewrite Hin. apply in_map. exact Hy.
Qed.

(** Assignments of [val p] to keys [p] that are new, or already hold
    [val p], only append. *)
Lemma set_all_appends {V : Type} (val : Z -> V) (l : list Z) (d0 : dict V) :
  (forall x, In x l -> In x (dict_keys d0) -> dict_get x d0 = Some (val x)) ->
  exists extra,
    set_all (fun p => p) val l d0 = d0 ++ map (fun p => (p, val p)) extra.
Proof.
  revert d0. induction l as [|x t IH]; intros d0 H.
  - exists []. simpl. rewrite app_nil_r. reflexivity.
  - rewrite set_all_cons. destruct (dict_get x d0) as [w|] eqn:E.
    + assert (Hin : In x (dict_keys d0)) by (apply dict_keys_get; rewrite E; discriminate).
      rewrite dict_set_same by (apply H; [left; reflexivity | exact Hin]).
      apply IH. intros y Hy. apply H. right. exact Hy.
    + apply dict_get_None in E. rewrite dict_set_new by exact E.
      destruct (IH (d0 ++ [(x, val x)])) as [extra Hextra].
      * intros y Hy Hin. rewrite dict_get_app.
        destruct (dict_get y d0) as [w|] eqn:Ey.
        -- rewrite <- Ey. apply H; [right; exact Hy|].
           apply dict_keys_get. rewrite Ey. discriminate.
        -- apply dict_get_None in Ey.
           unfold dict_keys in Hin. rewrite map_app, in_app_iff in Hin.
           destruct Hin as [Hin|[Hin|[]]]; [contradiction|].
           simpl in Hin. subst y. simpl. rewrite Z.eqb_refl. reflexivity.
      * exists (x :: extra). rewrite Hextra, <- app_assoc. reflexivity.
Qed.

(** The dictionary of the aggregator lists the groups in the order given to
    them, then the products shown without movement. *)
Lemma find_move_line_with_shape (order : list group -> list group)
    (db : database) (self : PurchasePlanning) (src dst : string) :
  (forall l, Permutation (order l) l) ->
  exists extra,
    find_move_line_with order db self src dst
    = OK (items_of_groups
            (order (read_group db
                      (_get_move_line_domain self (_get_products db self) src dst)))
          ++ items_of_products extra).
Proof.
  intros Hperm. unfold find_move_line_with.
  set (products := _get_products db self).
  set (domain := _get_move_line_domain self products src dst).
  set (groups := order (read_group db domain)).
  assert (Hnd : NoDup (map g_product_id groups)).
  { apply (Permutation_NoDup (l := map g_product_id (read_group db domain))).
    - apply Permutation_map, Permutation_sym, Hperm.
    - apply read_group_NoDup. }
  rewrite (mapM_OK _ line_of_group).
  2:{ intros g Hg. apply (Permutation_in _ (Hperm _)) in Hg.
      apply read_group_In in Hg. destruct Hg as [Hg _].
      apply (selected_moves_products db self src dst) in Hg. fold products in Hg.
      unfold found_line, dict_getitem.
      rewrite (product_dict_get _ _ Hg). reflexivity. }
  simpl.
  assert (Hd : dict_of_list line_key (map line_of_group groups) = items_of_groups groups).
  { unfold dict_of_list.
    change (fold_left _ ?l ?d) with (set_all line_key (fun x : vals => x) l d).
    rewrite set_all_fresh.
    - simpl. unfold items_of_groups. rewrite map_map. reflexivity.
    - rewrite map_map. exact Hnd.
    - intros x _ []. }
  rewrite Hd. unfold show_all.
  destruct (show_all_partner_products self || show_all_products self).
  - change (fold_left _ ?l ?d) with (set_all (fun q : Z => q) vals_of_product l d).
    match goal with
    | |- context [set_all _ _ ?l ?d] =>
        destruct (set_all_appends vals_of_product l d) as [extra Hextra]
    end.
    + intros x Hx Hin. apply filter_In in Hx. destruct Hx as [_ Hx].
      apply dict_mem_In in Hin. rewrite Hin in Hx. discriminate.
    + exists extra. rewrite Hextra. reflexivity.
  - exists []. simpl. rewrite app_nil_r. reflexivity.
Qed.

Lemma mapM_Raise_Permutation {A B : Type} (f : A -> result B) (l1 l2 : list A) (e : exn) :
  (forall x y e', f x = Raise e' -> f y = Raise e') ->
  Permutation l1 l2 -> mapM f l1 = Raise e -> mapM f l2 = Raise e.
Proof.
  intros Hindep HP H. apply mapM_Raise_In in H. destruct H as [x [Hx Hf]].
  destruct l2 as [|y t].
  - apply Permutation_sym, Permutation_nil in HP. subst l1. contradiction.
  - simpl. rewrite (Hindep x y e Hf). reflexivity.
Qed.

Section TwoOrders.
Variables order1 order2 : list group -> list group.
Hypothesis order1_Permutation : forall l, Permutation (order1 l) l.
Hypothesis order2_Permutation : forall l, Permutation (order2 l) l.

(** Two intermediate orderings lead to the same rows, created in possibly
    different orders, or to the same exception. *)
Lemma show_results_with_order (db : database) (self : PurchasePlanning)
    (table : list PurchasePlanningLine) :
  match show_results_with order1 db self table with
  | OK t1 =>
      exists t2, show_results_with order2 db self table = OK t2
                 /\ Permutation t1 t2 /\ NoDup (map l_product_id t1)
  | Raise e => show_results_with order2 db self table = Raise e
  end.
Proof.
  destruct (show_results_with order1 db self table) as [t1|e] eqn:E1.
  - destruct (show_results_with_inv order1 order1_Permutation db self table t1 E1)
      as [fd1 [M1 [N1 [G1 F1]]]].
    destruct (merged_with_spec order2 order2_Permutation db self) as [fd2 [M2 [N2 G2]]].
    assert (HP : Permutation fd1 fd2).
    { apply dict_ext_Permutation; try assumption.
      intros k. rewrite G1, G2. reflexivity. }
    apply mapM_Forall2 in F1.
    destruct (mapM_Permutation _ _ _ HP _ F1) as [t2 [E2 P2]].
    exists t2. split; [|split].
    + unfold show_results_with, unlink_all. rewrite M2. simpl.
      rewrite create_lines_mapM, E2. reflexivity.
    + exact P2.
    + apply mapM_Forall2 in F1.
      apply (row_of_product db self fd1 t1); try assumption.
      apply (merged_dict_product db self); assumption.
  - unfold show_results_with, unlink_all in *.
    destruct (merged_with_spec order1 order1_Permutation db self) as [fd1 [M1 [N1 G1]]].
    destruct (merged_with_spec order2 order2_Permutation db self) as [fd2 [M2 [N2 G2]]].
    rewrite M1 in E1. rewrite M2. simpl in *.
    rewrite create_lines_mapM in *.
    destruct (mapM (fun kv => _prepare_wizard_line db self (snd kv)) fd1)
      as [rows|e1] eqn:R1; simpl in E1; [discriminate|].
    injection E1 as ->.
    rewrite (mapM_Raise_Permutation _ fd1 fd2 e); [reflexivity | | | exact R1].
    + intros x y e'. apply prepare_Raise_indep.
    + apply dict_ext_Permutation; try assumption.
      intros k. rewrite G1, G2. reflexivity.
Qed.
End TwoOrders.

Lemma key_ge_spec (x y : group) :
  key_ge x y = true <->
  g_product_id_count y < g_product_id_count x
  \/ (g_product_id_count y = g_product_id_count x
      /\ (g_qty_done y <= g_qty_done x)%Q).
Proof.
  unfold key_ge. rewrite orb_true_iff, andb_true_iff, Z.ltb_lt, Z.eqb_eq,
    Qle_bool_iff. reflexivity.
Qed.

Lemma StronglySorted_impl {A : Type} (R R' : A -> A -> Prop) (l : list A) :
  (forall a b, R a b -> R' a b) -> StronglySorted R l -> StronglySorted R' l.
Proof.
  intros HR. induction 1 as [|a l Hl IH Ha].
  - constructor.
  - constructor; [exact IH|]. rewrite Forall_forall in *.
    intros x Hx. apply HR, Ha. exact Hx.
Qed.

Lemma NoDup_map_injective {A B : Type} (f : A -> B) (l : list A) :
  (forall x y, f x = f y -> x = y) -> NoDup l -> NoDup (map f l).
Proof.
  intros Hinj. induction 1 as [|a l Hn Hl IH]; simpl.
  - constructor.
  - constructor; [|exact IH]. rewrite in_map_iff. intros [x [E Hx]].
    apply Hinj in E. subst x. contradiction.
Qed.

Lemma read_lines_order (rank : Z -> Z) (table : list PurchasePlanningLine) :
  read_lines rank _order table = sorted (product_leb rank) table.
Proof. reflexivity. Qed.

Lemma read_lines_Permutation (rank : Z -> Z) (table : list PurchasePlanningLine) :
  Permutation (read_lines rank _order table) table.
Proof. rewrite read_lines_order. apply sorted_Permutation. Qed.

Lemma rows_rank_NoDup (rank : Z -> Z) (table : list PurchasePlanningLine) :
  (forall p q, rank p = rank q -> p = q) ->
  NoDup (map l_product_id table) ->
  NoDup (map (fun a => rank (l_product_id a)) table).
Proof.
  intros Hinj Hnd. rewrite <- (map_map l_product_id rank).
  apply NoDup_map_injective; assumption.
Qed.

(** C9. The aggregator lists its groups in descending order of (count,
    quantity): each group has a larger count than every later one, or the
    same count and a quantity at least as large; the groups are a
    rearrangement of what the grouped read returned.  Read in the declared
    [_order], the report comes in strictly ascending rank of the products
    of its rows, for any ranking of the products (their ids, for the order
    by product identity).  With or without the intermediate ordering the
    action ends alike: the same exception, or tables with the same rows
    and the same report. *)
Theorem C9_intermediate_order_irrelevant (rank : Z -> Z) (db : database)
    (self : PurchasePlanning) (table : list PurchasePlanningLine) :
  (forall p q, rank p = rank q -> p = q) ->
  (forall src dst,
      exists groups extra,
        _find_move_line db self src dst
        = OK (items_of_groups groups ++ items_of_products extra)
        /\ StronglySorted
             (fun x y =>
                g_product_id_count y < g_product_id_count x
                \/ (g_product_id_count y = g_product_id_count x
                    /\ (g_qty_done y <= g_qty_done x)%Q))
             groups
        /\ Permutation groups
             (read_group db
                (_get_move_line_domain self (_get_products db self) src dst)))
  /\ (forall rows, report rank db self table = OK rows ->
        StronglySorted
          (fun a b => rank (l_product_id a) < rank (l_product_id b)) rows
        /\ exists t, action_show_results db self table = OK t
                     /\ Permutation rows t)
  /\ report rank db self table = report_unsorted rank db self table
  /\ match action_show_results db self table with
     | OK t1 =>
         exists t2, action_show_results_unsorted db self table = OK t2
                    /\ Permutation t1 t2
     | Raise e => action_show_results_unsorted db self table = Raise e
     end.
Proof.
  intros Hinj.
  pose proof (show_results_with_order (sorted key_ge) (fun l => l)
                (sorted_Permutation key_ge) (fun l => Permutation_refl l)
                db self table) as H.
  fold (action_show_results db self table) in H.
  fold (action_show_results_unsorted db self table) in H.
  split; [|split; [|split]].
  - intros src dst.
    destruct (find_move_line_with_shape (sorted key_ge) db self src dst
                (sorted_Permutation key_ge)) as [extra E].
    eexists. exists extra. split; [exact E|]. split.
    + apply (StronglySorted_impl (fun x y => key_ge x y = true)).
      * intros x y Hxy. apply key_ge_spec. exact Hxy.
      * apply sorted_StronglySorted; [apply key_ge_total | apply key_ge_trans].
    + apply sorted_Permutation.
  - intros rows. unfold report.
    destruct (action_show_results db self table) as [t1|e]; simpl; [|discriminate].
    intros E. injection E as <-. destruct H as [t2 [_ [_ N]]]. split.
    + rewrite read_lines_order.
      apply (sorted_by_key_strict (fun a => rank (l_product_id a))).
      apply rows_rank_NoDup; assumption.
    + exists t1. split; [reflexivity | apply read_lines_Permutation].
  - unfold report, report_unsorted.
    destruct (action_show_results db self table) as [t1|e].
    + destruct H as [t2 [E2 [P N]]]. rewrite E2. simpl. f_equal.
      rewrite !read_lines_order.
      apply (sorted_by_key_Permutation (fun a => rank (l_product_id a)));
        [apply rows_rank_NoDup; assumption | exact P].
    + rewrite H. reflexivity.
  - destruct (action_show_results db self table) as [t1|e].
    + destruct H as [t2 [E2 [P _]]]. exists t2. split; assumption.
    + exact H.
Qed.

Lemma C9_intermediate_order_irrelevant_witness :
  report (fun p => p) db_example self_example [] = OK (rev rows_example)
  /\ report (fun p => p) db_example self_example []
     = report_unsorted (fun p => p) db_example self_example [].
Proof.
  destruct (C9_intermediate_order_irrelevant (fun p => p) db_example self_example []
              (fun p q E => E)) as [_ [_ [H _]]].
  split; [reflexivity | exact H].
Defined.

(** * Further properties of the wizard *)

(** ** Shared facts *)

Lemma filter_all_false {A : Type} (f : A -> bool) (l : list A) :
  (forall x, In x l -> f x = false) -> filter f l = [].
Proof.
  induction l as [|x t IH]; simpl; intros H.
  - reflexivity.
  - rewrite (H x (or_introl eq_refl)). apply IH.
    intros y Hy. apply H. right. exact Hy.
Qed.

Lemma moves_of_not_moved (db : database) (self : PurchasePlanning)
    (src dst : string) (p : Z) :
  mem p (map ml_product_id (selected_moves db self src dst)) = false ->
  moves_of db self src dst p = [].
Proof.
  intros H. unfold moves_of. apply filter_all_false. intros m Hm.
  apply Z.eqb_neq. intros E. apply mem_nil_false in H. apply H.
  rewrite <- E. apply in_map. exact Hm.
Qed.

Lemma moves_of_moved (db : database) (self : PurchasePlanning)
    (src dst : string) (p : Z) :
  mem p (map ml_product_id (selected_moves db self src dst)) = true <->
  moves_of db self src dst p <> [].
Proof.
  split.
  - intros H Hnil. apply moves_of_nil in Hnil. rewrite Hnil in H. discriminate.
  - intros H.
    destruct (mem p (map ml_product_id (selected_moves db self src dst))) eqn:M;
      [reflexivity|].
    exfalso. apply H. apply moves_of_not_moved. exact M.
Qed.

(** The figures and the keys of an aggregate, in terms of the selected
    movements. *)
Lemma find_move_line_figures (db : database) (self : PurchasePlanning)
    (src dst : string) (d : dict vals) (p : Z) :
  _find_move_line db self src dst = OK d ->
  times_of d p = Z.of_nat (List.length (moves_of db self src dst p))
  /\ units_of d p = Qsum (map ml_qty_done (moves_of db self src dst p))
  /\ (In p (dict_keys d) <->
      moves_of db self src dst p <> []
      \/ ((show_all_partner_products self || show_all_products self) = true
          /\ In p (shown_products db self))).
Proof.
  intros H.
  destruct (find_move_line_with_get _ (sorted_Permutation key_ge) db self _ _ _ H)
    as [_ G].
  unfold times_of, units_of. rewrite dict_keys_get, G. unfold aggregate_entry.
  rewrite <- moves_of_moved, <- mem_In.
  destruct (mem p (map ml_product_id (selected_moves db self src dst))) eqn:M.
  - split; [reflexivity|]. split; [reflexivity|].
    split; [intros _; left; reflexivity | intros _; discriminate].
  - rewrite (moves_of_not_moved db self src dst p M).
    destruct (show_all_partner_products self || show_all_products self);
      destruct (mem p (shown_products db self)); simpl;
      (split; [reflexivity|]); (split; [reflexivity|]);
      split; intros X;
      first [ discriminate | right; split; reflexivity
            | exfalso; apply X; reflexivity
            | destruct X as [X|[X1 X2]]; discriminate ].
Qed.

(** A row of a completed action, traced back to the two aggregates. *)
Lemma action_row_traced (db : database) (self : PurchasePlanning)
    (table table' : list PurchasePlanningLine) (row : PurchasePlanningLine) :
  action_show_results db self table = OK table' ->
  In row table' ->
  exists d received delivered,
    _find_move_line db self "supplier" "internal" = OK received
    /\ _find_move_line db self "internal" "customer" = OK delivered
    /\ (In (l_product_id row) (dict_keys received)
        \/ In (l_product_id row) (dict_keys delivered))
    /\ _get_total_days self = OK d /\ d <> 0
    /\ l_times_received row = times_of received (l_product_id row)
    /\ l_units_received row = units_of received (l_product_id row)
    /\ l_times_delivered row = times_of delivered (l_product_id row)
    /\ l_units_delivered row = units_of delivered (l_product_id row)
    /\ l_units_avg_delivered row
       = (units_of delivered (l_product_id row) / inject_Z d)%Q.
Proof.
  intros H Hin.
  destruct (find_move_line_with_spec (sorted key_ge) (sorted_Permutation key_ge)
              db self "supplier" "internal") as [received [Er _]].
  destruct (find_move_line_with_spec (sorted key_ge) (sorted_Permutation key_ge)
              db self "internal" "customer") as [delivered [Ed _]].
  destruct (action_rows (sorted key_ge) (sorted_Permutation key_ge)
              db self table table' received delivered Er Ed H) as [_ [R2 R3]].
  assert (Hk : In (l_product_id row) (dict_keys received)
               \/ In (l_product_id row) (dict_keys delivered)).
  { apply R2. apply in_map. exact Hin. }
  destruct (R3 _ Hk) as [row0 [d [_ [_ [U [A [B [C [D [E [F G]]]]]]]]]]].
  rewrite <- (U row Hin eq_refl) in *.
  exists d, received, delivered. repeat split; assumption.
Qed.

Lemma get_products_shown (db : database) (self : PurchasePlanning) (p : Z) :
  In p (_get_products db self) -> In p (shown_products db self).
Proof.
  intros H. unfold shown_products.
  destruct (show_all_products self); [apply in_or_app; left|]; exact H.
Qed.

(** The product of a row is one of the products of line 124, or has a
    selected movement. *)
Lemma row_product_shown (db : database) (self : PurchasePlanning)
    (table table' : list PurchasePlanningLine) (row : PurchasePlanningLine) :
  action_show_results db self table = OK table' ->
  In row table' ->
  In (l_product_id row) (shown_products db self)
  /\ ((show_all_partner_products self || show_all_products self) = false ->
      moves_of db self "supplier" "internal" (l_product_id row) <> []
      \/ moves_of db self "internal" "customer" (l_product_id row) <> []).
Proof.
  intros H Hin.
  destruct (action_row_traced db self table table' row H Hin)
    as [d [received [delivered [Er [Ed [Hk _]]]]]].
  destruct (find_move_line_figures db self _ _ received (l_product_id row) Er)
    as [_ [_ Kr]].
  destruct (find_move_line_figures db self _ _ delivered (l_product_id row) Ed)
    as [_ [_ Kd]].
  rewrite Kr, Kd in Hk. split.
  - destruct Hk as [[Hm|[_ Hs]]|[Hm|[_ Hs]]]; try exact Hs;
      apply moves_of_moved, mem_In, selected_moves_products in Hm;
      apply get_products_shown; exact Hm.
  - intros Hflags. rewrite Hflags in Hk.
    destruct Hk as [[Hm|[X _]]|[Hm|[X _]]]; try discriminate;
      [left | right]; exact Hm.
Qed.

Lemma search_products_In (db : database) (self : PurchasePlanning) (p : Z) :
  In p (search_products db (_get_all_products_domain self)) <->
  In p (product_table db)
  /\ prod_active db p = true
  /\ prod_purchase_ok db p = true
  /\ (product_category_ids self = []
      \/ In (prod_categ_id db p) (product_category_ids self)).
Proof.
  unfold search_products, _get_all_products_domain. rewrite filter_In.
  destruct (product_category_ids self) as [|c cs] eqn:C;
    cbn [nonempty app forallb eval_product_leaf];
    rewrite ?andb_true_iff, ?mem_In, ?eqb_true_iff.
  - split.
    + intros [Ht [Ha [Hp _]]]. repeat split; try assumption. left. reflexivity.
    + intros [Ht [Ha [Hp _]]]. repeat split; assumption.
  - split.
    + intros [Ht [Ha [Hp [Hc _]]]]. repeat split; try assumption. right. exact Hc.
    + intros [Ht [Ha [Hp [Hc|Hc]]]]; [discriminate|]. repeat split; assumption.
Qed.

Lemma shown_products_category (db : database) (self : PurchasePlanning) (p : Z) :
  In p (shown_products db self) ->
  product_category_ids self = []
  \/ In (prod_categ_id db p) (product_category_ids self).
Proof.
  unfold shown_products. intros H.
  assert (Hg : In p (_get_products db self) ->
               product_category_ids self = []
               \/ In (prod_categ_id db p) (product_category_ids self)).
  { intros Hp. apply get_products_In in Hp. apply Hp. }
  destruct (show_all_products self); [|exact (Hg H)].
  apply in_app_or in H. destruct H as [H|H]; [exact (Hg H)|].
  apply search_products_In in H. apply H.
Qed.

(** ** The figures of a row *)

(** X1. In the report of a completed action, the received and delivered
    counts of a row are the numbers of selected supplier-to-internal and
    internal-to-customer movements of its product, and its quantities are
    the sums of their quantities done. *)
Theorem X1_row_figures (db : database) (self : PurchasePlanning)
    (table table' : list PurchasePlanningLine) (row : PurchasePlanningLine) :
  action_show_results db self table = OK table' ->
  In row table' ->
  l_times_received row
  = Z.of_nat (List.length
                (moves_of db self "supplier" "internal" (l_product_id row)))
  /\ l_units_received row
     = Qsum (map ml_qty_done
               (moves_of db self "supplier" "internal" (l_product_id row)))
  /\ l_times_delivered row
     = Z.of_nat (List.length
                   (moves_of db self "internal" "customer" (l_product_id row)))
  /\ l_units_delivered row
     = Qsum (map ml_qty_done
               (moves_of db self "internal" "customer" (l_product_id row))).
Proof.
  intros H Hin.
  destruct (action_row_traced db self table table' row H Hin)
    as [d [received [delivered [Er [Ed [_ [_ [_ [A [B [C [D _]]]]]]]]]]]].
  destruct (find_move_line_figures db self _ _ received (l_product_id row) Er)
    as [Tr [Ur _]].
  destruct (find_move_line_figures db self _ _ delivered (l_product_id row) Ed)
    as [Td [Ud _]].
  rewrite A, B, C, D, Tr, Ur, Td, Ud. repeat split; reflexivity.
Qed.

Lemma X1_row_figures_witness :
  l_times_delivered row_1
  = Z.of_nat (List.length
                (moves_of db_example self_example "internal" "customer"
                   (l_product_id row_1)))
  /\ l_units_delivered row_1
     = Qsum (map ml_qty_done
               (moves_of db_example self_example "internal" "customer"
                  (l_product_id row_1))).
Proof.
  destruct (X1_row_figures db_example self_example [] rows_example row_1
              eq_refl (or_intror (or_introl eq_refl)))
    as [_ [_ [H1 H2]]].
  split; [exact H1 | exact H2].
Defined.

(** ** The products of the report *)

(** X2. A completed action never shows a product outside the products of
    line 124 (the vendor's products, plus the purchasable ones when
    [show_all_products] is set); with both show-all flags off, every row
    is that of a product with a selected movement, received or
    delivered. *)
Theorem X2_rows_within_candidates (db : database) (self : PurchasePlanning)
    (table table' : list PurchasePlanningLine) (row : PurchasePlanningLine) :
  action_show_results db self table = OK table' ->
  In row table' ->
  In (l_product_id row) (shown_products db self)
  /\ (show_all_partner_products self = false ->
      show_all_products self = false ->
      moves_of db self "supplier" "internal" (l_product_id row) <> []
      \/ moves_of db self "internal" "customer" (l_product_id row) <> []).
Proof.
  intros H Hin.
  destruct (row_product_shown db self table table' row H Hin) as [A B].
  split; [exact A|]. intros F1 F2. apply B. rewrite F1, F2. reflexivity.
Qed.

Lemma X2_rows_within_candidates_witness :
  In (l_product_id row_1) (shown_products db_example self_example).
Proof.
  exact (proj1 (X2_rows_within_candidates db_example self_example [] rows_example
                  row_1 eq_refl (or_intror (or_introl eq_refl)))).
Defined.

(** X3. When categories are selected, every row of a completed action is
    that of a product of one of these categories, whatever the show-all
    flags. *)
Theorem X3_category_filter_every_row (db : database) (self : PurchasePlanning)
    (table table' : list PurchasePlanningLine) (row : PurchasePlanningLine) :
  product_category_ids self <> [] ->
  action_show_results db self table = OK table' ->
  In row table' ->
  In (prod_categ_id db (l_product_id row)) (product_category_ids self).
Proof.
  intros Hc H Hin.
  destruct (row_product_shown db self table table' row H Hin) as [A _].
  destruct (shown_products_category db self _ A) as [E|E];
    [contradiction | exact E].
Qed.

Lemma X3_category_filter_every_row_witness :
  In (prod_categ_id db_example (l_product_id row_1))
     (product_category_ids self_filtered).
Proof.
  apply (X3_category_filter_every_row db_example self_filtered [] rows_example row_1);
    [discriminate | reflexivity | right; left; reflexivity].
Defined.

(** ** The window of the query *)

Lemma US_PER_DAY_pos : 0 < US_PER_DAY.
Proof. reflexivity. Qed.

Lemma window_days (b e dt : Z) :
  combine_min b <= dt <= combine_max e <-> b <= day_of dt <= e.
Proof.
  unfold combine_min, combine_max, day_of.
  pose proof US_PER_DAY_pos as HU.
  pose proof (Z.div_mod dt US_PER_DAY) as Hdm.
  pose proof (Z.mod_pos_bound dt US_PER_DAY HU) as Hm.
  assert (Hne : US_PER_DAY <> 0) by lia. specialize (Hdm Hne).
  split; intros [H1 H2]; split; nia.
Qed.

(** X4. The query selects by whole calendar days: a movement is selected
    exactly when it is completed, of a candidate product, of the given
    pair of location kinds, within the warehouse filter if any, and dated
    on a day from [date_begin] to [date_end], both included, at any time
    of that day. *)
Theorem X4_window_whole_days (db : database) (self : PurchasePlanning)
    (src dst : string) (m : move_line) :
  In m (selected_moves db self src dst) <->
  In m (move_line_table db)
  /\ ml_state m = "done"%string
  /\ In (ml_product_id m) (_get_products db self)
  /\ date_begin self <= day_of (ml_date m) <= date_end self
  /\ ml_location_usage m = src
  /\ ml_location_dest_usage m = dst
  /\ (warehouse_ids self <> [] ->
      exists w, ml_warehouse_id m = Some w /\ In w (warehouse_ids self)).
Proof.
  unfold selected_moves. rewrite search_move_lines_In, domain_eval, window_days.
  tauto.
Qed.

Lemma get_total_days_valid_end (self : PurchasePlanning) :
  valid_date (date_end self) ->
  date_end self < MAXORDINAL ->
  _get_total_days self
  = OK (date_sub_days (date_end self) (date_begin self) + 1).
Proof.
  unfold valid_date, _get_total_days, date_add_days, date_sub_days.
  intros [Hb _] Hmax.
  assert (E1 : (1 <=? date_end self + 1) = true) by (apply Z.leb_le; lia).
  assert (E2 : (date_end self + 1 <=? MAXORDINAL) = true) by (apply Z.leb_le; lia).
  rewrite E1, E2. simpl. f_equal. lia.
Qed.

Lemma reversed_window_no_moves (db : database) (self : PurchasePlanning)
    (src dst : string) :
  date_end self < date_begin self -> selected_moves db self src dst = [].
Proof.
  intros Hrev. unfold selected_moves, search_move_lines.
  apply filter_all_false. intros m _.
  destruct (eval_move_domain _ m) eqn:E; [|reflexivity].
  apply domain_eval in E. destruct E as [_ [_ [Hw _]]].
  apply window_days in Hw. lia.
Qed.

(** X5. A window whose end date is before its start date selects no
    movement.  Unless it ends exactly one day before it begins, the action
    then still completes, and every row it creates (for the products shown
    without movement) has zero counts, quantities and average. *)
Theorem X5_reversed_window (db : database) (self : PurchasePlanning)
    (table : list PurchasePlanningLine) :
  valid_date (date_begin self) ->
  valid_date (date_end self) ->
  date_end self < date_begin self ->
  (forall src dst, selected_moves db self src dst = [])
  /\ (date_end self <> date_begin self - 1 ->
      exists table', action_show_results db self table = OK table')
  /\ forall table' row,
       action_show_results db self table = OK table' ->
       In row table' ->
       l_times_received row = 0 /\ l_units_received row = 0%Q
       /\ l_times_delivered row = 0 /\ l_units_delivered row = 0%Q
       /\ (l_units_avg_delivered row == 0)%Q.
Proof.
  intros Hvb Hv Hrev. split; [|split].
  - intros src dst. apply reversed_window_no_moves. exact Hrev.
  - intros Hne.
    apply (show_results_with_total (sorted key_ge) (sorted_Permutation key_ge)
             db self table (date_sub_days (date_end self) (date_begin self) + 1)).
    + apply get_total_days_valid_end; [exact Hv|].
      unfold valid_date in Hvb. lia.
    + unfold date_sub_days. lia.
  - intros table' row H Hin.
    destruct (action_row_traced db self table table' row H Hin)
      as [d [received [delivered [Er [Ed [_ [_ [_ [A [B [C [D E]]]]]]]]]]]].
    destruct (find_move_line_figures db self _ _ received (l_product_id row) Er)
      as [Tr [Ur _]].
    destruct (find_move_line_figures db self _ _ delivered (l_product_id row) Ed)
      as [Td [Ud _]].
    unfold moves_of in Tr, Ur, Td, Ud.
    rewrite (reversed_window_no_moves db self "supplier" "internal" Hrev) in Tr, Ur.
    rewrite (reversed_window_no_moves db self "internal" "customer" Hrev) in Td, Ud.
    simpl in Tr, Ur, Td, Ud.
    rewrite A, B, C, D, E, Tr, Ur, Td, Ud.
    repeat split; reflexivity.
Qed.

Lemma X5_reversed_window_witness :
  selected_moves db_example self_backwards "internal" "customer" = []
  /\ exists table', action_show_results db_example self_backwards [] = OK table'.
Proof.
  assert (Hb : valid_date (date_begin self_backwards))
    by (unfold valid_date; simpl; unfold MAXORDINAL; lia).
  assert (He : valid_date (date_end self_backwards))
    by (unfold valid_date; simpl; unfold MAXORDINAL; lia).
  assert (Hr : date_end self_backwards < date_begin self_backwards)
    by (simpl; lia).
  destruct (X5_reversed_window db_example self_backwards [] Hb He Hr) as [H1 [H2 _]].
  split; [apply H1 | apply H2; simpl; lia].
Defined.

(** ** The warehouse filter *)

(** X6. Selecting warehouses only narrows the query: a movement selected
    under the filter is also selected by the same request without the
    filter, and its transfer belongs to one of the selected warehouses; a
    movement without transfer or warehouse is never selected under a
    filter. *)
Theorem X6_warehouse_filter_narrows (db : database) (self : PurchasePlanning)
    (src dst : string) (m : move_line) :
  In m (selected_moves db self src dst) ->
  In m (selected_moves db (without_warehouses self) src dst)
  /\ (warehouse_ids self <> [] ->
      exists w, ml_warehouse_id m = Some w /\ In w (warehouse_ids self)).
Proof.
  unfold selected_moves. rewrite !search_move_lines_In, !domain_eval.
  change (_get_products db (without_warehouses self)) with (_get_products db self).
  simpl. intros [Ht [Hs [Hp [Hw [Hsrc [Hdst Hwh]]]]]]. split; [|exact Hwh].
  repeat split; try assumption; try apply Hw.
  intros Hne. exfalso. apply Hne. reflexivity.
Qed.

Lemma delivery_selected_filtered :
  In (delivery 1 (combine_min 738000 + 1) "done" 10)
     (selected_moves db_example self_filtered "internal" "customer").
Proof. vm_compute. left. reflexivity. Qed.

Lemma X6_warehouse_filter_narrows_witness :
  In (delivery 1 (combine_min 738000 + 1) "done" 10)
     (selected_moves db_example (without_warehouses self_filtered)
        "internal" "customer").
Proof.
  exact (proj1 (X6_warehouse_filter_narrows db_example self_filtered
                  "internal" "customer" _ delivery_selected_filtered)).
Defined.

(** ** When the action fails *)

Lemma prepare_outcome (db : database) (self : PurchasePlanning) (v : vals) :
  match _get_total_days self with
  | OK d =>
      if d =? 0 then _prepare_wizard_line db self v = Raise ZeroDivisionError
      else exists row, _prepare_wizard_line db self v = OK row
  | Raise e => _prepare_wizard_line db self v = Raise e
  end.
Proof.
  unfold _prepare_wizard_line.
  destruct (_get_total_days self) as [d|e]; simpl; [|reflexivity].
  unfold py_div. destruct (d =? 0); simpl; [reflexivity|].
  eexists. reflexivity.
Qed.

Lemma merged_keys (db : database) (self : PurchasePlanning)
    (fd received delivered : dict vals) :
  merged_with (sorted key_ge) db self = OK fd ->
  _find_move_line db self "supplier" "internal" = OK received ->
  _find_move_line db self "internal" "customer" = OK delivered ->
  forall p, In p (dict_keys fd) <->
            In p (dict_keys received) \/ In p (dict_keys delivered).
Proof.
  intros E Er Ed p.
  destruct (merged_with_spec (sorted key_ge) (sorted_Permutation key_ge) db self)
    as [fd' [E' [_ G]]].
  rewrite E' in E. injection E as ->.
  destruct (find_move_line_with_get _ (sorted_Permutation key_ge) db self _ _ _ Er)
    as [_ Gr].
  destruct (find_move_line_with_get _ (sorted_Permutation key_ge) db self _ _ _ Ed)
    as [_ Gd].
  rewrite !dict_keys_get, G, Gr, Gd. unfold merged_entry.
  destruct (aggregate_entry db self "internal" "customer" p);
    destruct (aggregate_entry db self "supplier" "internal" p); simpl;
    split; intros X;
    first [ discriminate | left; discriminate | right; discriminate
          | exfalso; apply X; reflexivity
          | destruct X as [X|X]; exfalso; apply X; reflexivity ].
Qed.

(** X7. The action fails exactly when there is at least one row to prepare
    and the number of days of the window cannot be used: it raises the
    exception of [_get_total_days] (the overflow of the day after
    [date.max]) or, for a window of zero days, [ZeroDivisionError].  With
    no product in either aggregate it completes whatever the dates, and it
    never raises [KeyError]. *)
Theorem X7_action_failure (db : database) (self : PurchasePlanning)
    (table : list PurchasePlanningLine) (received delivered : dict vals) (e : exn) :
  _find_move_line db self "supplier" "internal" = OK received ->
  _find_move_line db self "internal" "customer" = OK delivered ->
  (action_show_results db self table = Raise e <->
   dict_keys received ++ dict_keys delivered <> []
   /\ (_get_total_days self = Raise e
       \/ (_get_total_days self = OK 0 /\ e = ZeroDivisionError)))
  /\ (action_show_results db self table = Raise e -> e <> KeyError).
Proof.
  intros Er Ed.
  assert (Hmain : action_show_results db self table = Raise e <->
   dict_keys received ++ dict_keys delivered <> []
   /\ (_get_total_days self = Raise e
       \/ (_get_total_days self = OK 0 /\ e = ZeroDivisionError))).
  { unfold action_show_results, show_results_with, unlink_all.
    destruct (merged_with_spec (sorted key_ge) (sorted_Permutation key_ge) db self)
      as [fd [E _]].
    pose proof (merged_keys db self fd received delivered E Er Ed) as K.
    rewrite E. simpl. rewrite create_lines_mapM.
    destruct fd as [|[k v] t].
    - simpl. split; [discriminate|]. intros [Hne _]. exfalso. apply Hne.
      destruct (dict_keys received ++ dict_keys delivered) as [|p l] eqn:L;
        [reflexivity|].
      exfalso. apply (proj2 (K p)). apply in_app_or. rewrite L. left. reflexivity.
    - assert (Hne : dict_keys received ++ dict_keys delivered <> []).
      { intros L. assert (Hin : In k (dict_keys received ++ dict_keys delivered)).
        { apply in_or_app. apply K. left. reflexivity. }
        rewrite L in Hin. contradiction. }
      pose proof (prepare_outcome db self v) as Hv.
      destruct (_get_total_days self) as [d|e'] eqn:Hd.
      + destruct (d =? 0) eqn:Ez.
        * apply Z.eqb_eq in Ez. subst d. simpl. rewrite Hv. simpl. split.
          -- intros H. injection H as <-. split; [exact Hne|]. right.
             split; reflexivity.
          -- intros [_ [H|[_ ->]]]; [discriminate | reflexivity].
        * apply Z.eqb_neq in Ez.
          destruct (mapM_total (fun kv => _prepare_wizard_line db self (snd kv))
                      ((k, v) :: t)) as [rows Hrows].
          { intros x _. apply (prepare_total db self (snd x) d); assumption. }
          rewrite Hrows. simpl. split; [discriminate|].
          intros [_ [H|[H _]]]; [discriminate|]. injection H as ->.
          exfalso. apply Ez. reflexivity.
      + simpl. rewrite Hv. simpl. split.
        * intros H. injection H as <-. split; [exact Hne|]. left. reflexivity.
        * intros [_ [H|[H _]]]; [injection H as ->; reflexivity | discriminate]. }
  split; [exact Hmain|].
  intros H. apply Hmain in H. destruct H as [_ [H|[_ ->]]]; [|discriminate].
  unfold _get_total_days, date_add_days in H.
  destruct (_ && _); simpl in H; [discriminate|].
  injection H as <-. discriminate.
Qed.

Lemma X7_action_failure_witness :
  action_show_results db_example self_reversed [] = Raise ZeroDivisionError.
Proof.
  apply (proj1 (X7_action_failure db_example self_reversed [] _ _ ZeroDivisionError
                  eq_refl eq_refl)).
  split; [discriminate|]. right. split; reflexivity.
Defined.

(** ** The seller of a row *)

(** X8. The vendor, the price and the currency of a prepared row come from
    one and the same price list record, the one the resolver returns for
    the product and the vendor of the request: a row has a vendor exactly
    when it has a currency, and a row without vendor has price zero. *)
Theorem X8_seller_fields_consistent (db : database) (self : PurchasePlanning)
    (v : vals) (row : PurchasePlanningLine) :
  _prepare_wizard_line db self v = OK row ->
  (l_partner_id row = None <-> l_currency_id row = None)
  /\ (l_partner_id row = None -> l_price_unit row = 0%Q)
  /\ (forall vendor, l_partner_id row = Some vendor ->
        exists s,
          select_seller db (v_product_id v) (partner_id self) = Some s
          /\ si_name s = vendor
          /\ l_price_unit row = si_price s
          /\ l_currency_id row = Some (si_currency_id s)).
Proof.
  intros H. apply prepare_OK_inv in H.
  destruct H as [d [_ [_ [_ [_ [_ [_ [_ [_ [Hp [Hc Hv]]]]]]]]]]].
  rewrite Hp, Hc, Hv.
  destruct (select_seller db (v_product_id v) (partner_id self)) as [s|]; simpl.
  - split; [split; discriminate|]. split; [discriminate|].
    intros vendor E. injection E as <-. exists s. repeat split; reflexivity.
  - split; [split; reflexivity|]. split; [reflexivity | discriminate].
Qed.

Lemma X8_seller_fields_consistent_witness :
  exists s,
    select_seller db_example 1 (partner_id self_example) = Some s
    /\ si_name s = 10
    /\ l_price_unit row_1 = si_price s
    /\ l_currency_id row_1 = Some (si_currency_id s).
Proof.
  apply (proj2 (proj2 (X8_seller_fields_consistent db_example self_example
                         (set_delivered (line_of_group
                                           (group_of (selected_moves db_example self_example
                                                        "internal" "customer") 1))
                                        (vals_of_product 1))
                         row_1 eq_refl)) 10 eq_refl).
Defined.

(** ** Showing every purchasable product *)

Lemma no_products_no_moves (db : database) (self : PurchasePlanning)
    (src dst : string) :
  _get_products db self = [] -> selected_moves db self src dst = [].
Proof.
  intros Hp. unfold selected_moves, search_move_lines.
  apply filter_all_false. intros m _.
  destruct (eval_move_domain _ m) eqn:E; [|reflexivity].
  apply domain_product in E. rewrite Hp in E. contradiction.
Qed.

(** Without vendor and with [show_all_products], the report lists the
    active purchasable products of the selected categories, with no
    movement at all. *)
Lemma no_vendor_show_all_rows (db : database) (self : PurchasePlanning)
    (table table' : list PurchasePlanningLine) :
  partner_id self = None ->
  show_all_products self = true ->
  action_show_results db self table = OK table' ->
  (forall p, In p (map l_product_id table') <->
             In p (search_products db (_get_all_products_domain self)))
  /\ forall row, In row table' ->
       l_times_received row = 0 /\ l_units_received row = 0%Q
       /\ l_times_delivered row = 0 /\ l_units_delivered row = 0%Q.
Proof.
  intros Hv Hall H.
  pose proof (get_products_no_vendor db self Hv) as Hp.
  assert (Hshown : shown_products db self
                   = search_products db (_get_all_products_domain self)).
  { unfold shown_products. rewrite Hall, Hp. reflexivity. }
  assert (Hflag : (show_all_partner_products self || show_all_products self) = true).
  { rewrite Hall. apply orb_true_r. }
  assert (Hmoves : forall src dst p, moves_of db self src dst p = []).
  { intros src dst p. unfold moves_of.
    rewrite (no_products_no_moves db self src dst Hp). reflexivity. }
  destruct (find_move_line_with_spec (sorted key_ge) (sorted_Permutation key_ge)
              db self "supplier" "internal") as [received [Er _]].
  destruct (find_move_line_with_spec (sorted key_ge) (sorted_Permutation key_ge)
              db self "internal" "customer") as [delivered [Ed _]].
  destruct (action_rows (sorted key_ge) (sorted_Permutation key_ge)
              db self table table' received delivered Er Ed H) as [_ [R2 _]].
  split.
  - intros p. rewrite R2.
    destruct (find_move_line_figures db self _ _ received p Er) as [_ [_ Kr]].
    destruct (find_move_line_figures db self _ _ delivered p Ed) as [_ [_ Kd]].
    rewrite Kr, Kd, !Hmoves, Hshown. split.
    + intros [[X|[_ X]]|[X|[_ X]]]; try exact X; exfalso; apply X; reflexivity.
    + intros X. left. right. split; [exact Hflag | exact X].
  - intros row Hin.
    destruct (action_row_traced db self table table' row H Hin)
      as [d [received' [delivered' [Er' [Ed' [_ [_ [_ [A [B [C [D _]]]]]]]]]]]].
    destruct (find_move_line_figures db self _ _ received' (l_product_id row) Er')
      as [Tr [Ur _]].
    destruct (find_move_line_figures db self _ _ delivered' (l_product_id row) Ed')
      as [Td [Ud _]].
    rewrite Hmoves in Tr, Ur, Td, Ud. simpl in Tr, Ur, Td, Ud.
    rewrite A, B, C, D, Tr, Ur, Td, Ud. repeat split; reflexivity.
Qed.

(** X9. Once the form has gone through [onchange_show_all_products] with
    [show_all_products] ticked, a completed action lists exactly the
    active, purchasable products of the product table (of the selected
    categories, when some are selected), and every row has zero received
    and delivered counts and quantities: with the vendor cleared, no
    movement is queried. *)
Theorem X9_show_all_after_onchange (db : database) (self : PurchasePlanning)
    (table table' : list PurchasePlanningLine) :
  show_all_products self = true ->
  action_show_results db (onchange_show_all_products self) table = OK table' ->
  (forall p, In p (map l_product_id table') <->
             In p (product_table db)
             /\ prod_active db p = true
             /\ prod_purchase_ok db p = true
             /\ (product_category_ids self = []
                 \/ In (prod_categ_id db p) (product_category_ids self)))
  /\ forall row, In row table' ->
       l_times_received row = 0 /\ l_units_received row = 0%Q
       /\ l_times_delivered row = 0 /\ l_units_delivered row = 0%Q.
Proof.
  intros Hall H.
  assert (Hv : partner_id (onchange_show_all_products self) = None).
  { unfold onchange_show_all_products. rewrite Hall. reflexivity. }
  assert (Hall' : show_all_products (onchange_show_all_products self) = true).
  { unfold onchange_show_all_products. rewrite Hall. simpl. reflexivity. }
  assert (Hc : product_category_ids (onchange_show_all_products self)
               = product_category_ids self).
  { unfold onchange_show_all_products. rewrite Hall. reflexivity. }
  destruct (no_vendor_show_all_rows db _ table table' Hv Hall' H) as [R1 R2].
  split; [|exact R2].
  intros p. rewrite R1, search_products_In, Hc. reflexivity.
Qed.

Lemma X9_show_all_after_onchange_witness :
  l_times_received row_3 = 0 /\ l_units_received row_3 = 0%Q
  /\ l_times_delivered row_3 = 0 /\ l_units_delivered row_3 = 0%Q.
Proof.
  apply (proj2 (X9_show_all_after_onchange db_example self_both_flags []
                  rows_show_all eq_refl eq_refl) row_3).
  right. right. left. reflexivity.
Defined.

(** ** The vendor's commercial entity *)

(** X10. Only the commercial entity of the vendor matters to the products
    and to the aggregates: two requests that differ in their vendor alone,
    the two vendors having the same commercial entity, have the same
    candidate products and the same result of [_find_move_line]. *)
Theorem X10_same_commercial_entity (db : database) (self : PurchasePlanning)
    (p1 p2 : Z) :
  commercial_partner_id db p1 = commercial_partner_id db p2 ->
  _get_products db (with_partner self (Some p1))
  = _get_products db (with_partner self (Some p2))
  /\ forall src dst,
       _find_move_line db (with_partner self (Some p1)) src dst
       = _find_move_line db (with_partner self (Some p2)) src dst.
Proof.
  intros H.
  assert (Hp : _get_products db (with_partner self (Some p1))
               = _get_products db (with_partner self (Some p2))).
  { unfold _get_products, _get_supplier_products. simpl. rewrite H. reflexivity. }
  split; [exact Hp|].
  intros src dst. unfold _find_move_line, find_move_line_with. rewrite Hp.
  reflexivity.
Qed.

Lemma X10_same_commercial_entity_witness :
  _get_products db_contacts (with_partner self_example (Some 10))
  = _get_products db_contacts (with_partner self_example (Some 11)).
Proof.
  exact (proj1 (X10_same_commercial_entity db_contacts self_example 10 11 eq_refl)).
Defined.

(** ** The totals of the report *)

Lemma Zsum_add {A : Type} (f g : A -> Z) (l : list A) :
  Zsum (map (fun x => f x + g x) l) = Zsum (map f l) + Zsum (map g l).
Proof.
  induction l as [|x t IH]; simpl; [reflexivity|]. rewrite IH. lia.
Qed.

Lemma Zsum_indicator (S : list Z) (x : Z) :
  NoDup S -> In x S ->
  Zsum (map (fun p => if x =? p then 1 else 0) S) = 1.
Proof.
  induction S as [|y t IH]; simpl; intros Hnd Hin; [contradiction|].
  inversion Hnd as [|? ? Hy Ht]; subst.
  assert (Hzero : forall l, ~ In x l ->
            Zsum (map (fun p => if x =? p then 1 else 0) l) = 0).
  { induction l as [|z l' IHl]; simpl; intros Hn; [reflexivity|].
    destruct (x =? z) eqn:E.
    - apply Z.eqb_eq in E. exfalso. apply Hn. left. symmetry. exact E.
    - rewrite IHl; [reflexivity|]. intros H. apply Hn. right. exact H. }
  destruct (x =? y) eqn:E.
  - apply Z.eqb_eq in E. subst y. rewrite Hzero by exact Hy. reflexivity.
  - destruct Hin as [->|Hin]; [rewrite Z.eqb_refl in E; discriminate|].
    rewrite IH by assumption. reflexivity.
Qed.

(** Counting the lines product by product, over distinct products that
    cover them, counts each line once. *)
Lemma count_partition (l : list move_line) (S : list Z) :
  NoDup S ->
  (forall m, In m l -> In (ml_product_id m) S) ->
  Zsum (map (fun p => Z.of_nat
                        (List.length (filter (fun m => ml_product_id m =? p) l))) S)
  = Z.of_nat (List.length l).
Proof.
  intros Hnd. induction l as [|m t IH]; intros Hcov.
  - clear Hnd Hcov. induction S as [|p S' IHS]; simpl; [reflexivity | exact IHS].
  - rewrite (map_ext _
      (fun p => (if ml_product_id m =? p then 1 else 0)
                + Z.of_nat (List.length (filter (fun m' => ml_product_id m' =? p) t)))).
    + rewrite Zsum_add, IH, Zsum_indicator.
      * simpl List.length. lia.
      * exact Hnd.
      * apply Hcov. left. reflexivity.
      * intros m' Hm'. apply Hcov. right. exact Hm'.
    + intros p. simpl. destruct (ml_product_id m =? p); simpl List.length; lia.
Qed.

(** X11. The report counts every selected movement once: over the rows of
    a completed action, the received counts add up to the number of
    selected supplier-to-internal movements, and the delivered counts to
    the number of selected internal-to-customer movements. *)
Theorem X11_counts_add_up (db : database) (self : PurchasePlanning)
    (table table' : list PurchasePlanningLine) :
  action_show_results db self table = OK table' ->
  Zsum (map l_times_received table')
  = Z.of_nat (List.length (selected_moves db self "supplier" "internal"))
  /\ Zsum (map l_times_delivered table')
     = Z.of_nat (List.length (selected_moves db self "internal" "customer")).
Proof.
  intros H.
  destruct (find_move_line_with_spec (sorted key_ge) (sorted_Permutation key_ge)
              db self "supplier" "internal") as [received [Er _]].
  destruct (find_move_line_with_spec (sorted key_ge) (sorted_Permutation key_ge)
              db self "internal" "customer") as [delivered [Ed _]].
  destruct (action_rows (sorted key_ge) (sorted_Permutation key_ge)
              db self table table' received delivered Er Ed H) as [R1 [R2 _]].
  assert (Hrow : forall row, In row table' ->
            l_times_received row
            = Z.of_nat (List.length
                          (moves_of db self "supplier" "internal" (l_product_id row)))
            /\ l_times_delivered row
               = Z.of_nat (List.length
                             (moves_of db self "internal" "customer" (l_product_id row)))).
  { intros row Hin.
    destruct (action_row_traced db self table table' row H Hin)
      as [d [received' [delivered' [Er' [Ed' [_ [_ [_ [A [_ [C _]]]]]]]]]]].
    destruct (find_move_line_figures db self _ _ received' (l_product_id row) Er')
      as [Tr _].
    destruct (find_move_line_figures db self _ _ delivered' (l_product_id row) Ed')
      as [Td _].
    rewrite A, C, Tr, Td. split; reflexivity. }
  assert (Hcov : forall src dst d, _find_move_line db self src dst = OK d ->
            (forall p, In p (dict_keys d) -> In p (map l_product_id table')) ->
            forall m, In m (selected_moves db self src dst) ->
                      In (ml_product_id m) (map l_product_id table')).
  { intros src dst d Hd Hk m Hm. apply Hk.
    destruct (find_move_line_figures db self src dst d (ml_product_id m) Hd)
      as [_ [_ K]].
    apply K. left. apply moves_of_moved, mem_In, in_map. exact Hm. }
  split.
  - rewrite (map_ext_in _
      (fun row => Z.of_nat (List.length
         (moves_of db self "supplier" "internal" (l_product_id row)))))
      by (intros row Hin; apply (Hrow row Hin)).
    rewrite <- (map_map l_product_id
      (fun p => Z.of_nat (List.length (moves_of db self "supplier" "internal" p)))).
    apply count_partition; [exact R1|].
    apply (Hcov _ _ received Er). intros p Hp. apply R2. left. exact Hp.
  - rewrite (map_ext_in _
      (fun row => Z.of_nat (List.length
         (moves_of db self "internal" "customer" (l_product_id row)))))
      by (intros row Hin; apply (Hrow row Hin)).
    rewrite <- (map_map l_product_id
      (fun p => Z.of_nat (List.length (moves_of db self "internal" "customer" p)))).
    apply count_partition; [exact R1|].
    apply (Hcov _ _ delivered Ed). intros p Hp. apply R2. right. exact Hp.
Qed.

Lemma X11_counts_add_up_witness :
  Zsum (map l_times_delivered rows_example)
  = Z.of_nat (List.length (selected_moves db_example self_example "internal" "customer")).
Proof.
  exact (proj2 (X11_counts_add_up db_example self_example [] rows_example eq_refl)).
Defined.

Lemma Qsum_add {A : Type} (f g : A -> Q) (l : list A) :
  (Qsum (map (fun x => f x + g x) l) == Qsum (map f l) + Qsum (map g l))%Q.
Proof.
  induction l as [|x t IH]; simpl.
  - reflexivity.
  - rewrite IH. ring.
Qed.

Lemma Qsum_ext {A : Type} (f g : A -> Q) (l : list A) :
  (forall x, In x l -> (f x == g x)%Q) ->
  (Qsum (map f l) == Qsum (map g l))%Q.
Proof.
  induction l as [|x t IH]; simpl; intros H.
  - reflexivity.
  - rewrite (H x (or_introl eq_refl)), IH; [reflexivity|].
    intros y Hy. apply H. right. exact Hy.
Qed.

Lemma Qsum_indicator (S : list Z) (x : Z) (q : Q) :
  NoDup S -> In x S ->
  (Qsum (map (fun p => if x =? p then q else 0) S) == q)%Q.
Proof.
  assert (Hzero : forall l, ~ In x l ->
            (Qsum (map (fun p => if x =? p then q else 0) l) == 0)%Q).
  { induction l as [|z l' IHl]; simpl; intros Hn; [reflexivity|].
    destruct (x =? z) eqn:E.
    - apply Z.eqb_eq in E. exfalso. apply Hn. left. symmetry. exact E.
    - rewrite IHl; [ring|]. intros H. apply Hn. right. exact H. }
  induction S as [|y t IH]; simpl; intros Hnd Hin; [contradiction|].
  inversion Hnd as [|? ? Hy Ht]; subst.
  destruct (x =? y) eqn:E.
  - apply Z.eqb_eq in E. subst y. rewrite Hzero by exact Hy. ring.
  - destruct Hin as [->|Hin]; [rewrite Z.eqb_refl in E; discriminate|].
    rewrite IH by assumption. ring.
Qed.

Lemma quantity_partition (l : list move_line) (S : list Z) :
  NoDup S ->
  (forall m, In m l -> In (ml_product_id m) S) ->
  (Qsum (map (fun p => Qsum (map ml_qty_done
                               (filter (fun m => ml_product_id m =? p) l))) S)
   == Qsum (map ml_qty_done l))%Q.
Proof.
  intros Hnd. induction l as [|m t IH]; intros Hcov.
  - clear Hnd Hcov. unfold Qsum.
    induction S as [|p S' IHS]; cbn [map filter fold_right] in *; [reflexivity|].
    rewrite IHS. ring.
  - rewrite (Qsum_ext _
      (fun p => (if ml_product_id m =? p then ml_qty_done m else 0)
                + Qsum (map ml_qty_done
                          (filter (fun m' => ml_product_id m' =? p) t)))%Q).
    + rewrite Qsum_add, IH, Qsum_indicator.
      * unfold Qsum. cbn [map fold_right]. reflexivity.
      * exact Hnd.
      * apply Hcov. left. reflexivity.
      * intros m' Hm'. apply Hcov. right. exact Hm'.
    + intros p _. cbn [filter].
      destruct (ml_product_id m =? p); unfold Qsum; cbn [map fold_right]; ring.
Qed.

(** X12. The report loses no quantity: over the rows of a completed
    action, the received quantities add up to the total quantity done of
    the selected supplier-to-internal movements, and the delivered
    quantities to that of the selected internal-to-customer movements. *)
Theorem X12_quantities_add_up (db : database) (self : PurchasePlanning)
    (table table' : list PurchasePlanningLine) :
  action_show_results db self table = OK table' ->
  (Qsum (map l_units_received table')
   == Qsum (map ml_qty_done (selected_moves db self "supplier" "internal")))%Q
  /\ (Qsum (map l_units_delivered table')
      == Qsum (map ml_qty_done (selected_moves db self "internal" "customer")))%Q.
Proof.
  intros H.
  destruct (find_move_line_with_spec (sorted key_ge) (sorted_Permutation key_ge)
              db self "supplier" "internal") as [received [Er _]].
  destruct (find_move_line_with_spec (sorted key_ge) (sorted_Permutation key_ge)
              db self "internal" "customer") as [delivered [Ed _]].
  destruct (action_rows (sorted key_ge) (sorted_Permutation key_ge)
              db self table table' received delivered Er Ed H) as [R1 [R2 _]].
  assert (Hrow : forall row, In row table' ->
            l_units_received row
            = Qsum (map ml_qty_done
                      (moves_of db self "supplier" "internal" (l_product_id row)))
            /\ l_units_delivered row
               = Qsum (map ml_qty_done
                         (moves_of db self "internal" "customer" (l_product_id row)))).
  { intros row Hin.
    destruct (action_row_traced db self table table' row H Hin)
      as [d [received' [delivered' [Er' [Ed' [_ [_ [_ [_ [B [_ [D _]]]]]]]]]]]].
    destruct (find_move_line_figures db self _ _ received' (l_product_id row) Er')
      as [_ [Ur _]].
    destruct (find_move_line_figures db self _ _ delivered' (l_product_id row) Ed')
      as [_ [Ud _]].
    rewrite B, D, Ur, Ud. split; reflexivity. }
  assert (Hcov : forall src dst d, _find_move_line db self src dst = OK d ->
            (forall p, In p (dict_keys d) -> In p (map l_product_id table')) ->
            forall m, In m (selected_moves db self src dst) ->
                      In (ml_product_id m) (map l_product_id table')).
  { intros src dst d Hd Hk m Hm. apply Hk.
    destruct (find_move_line_figures db self src dst d (ml_product_id m) Hd)
      as [_ [_ K]].
    apply K. left. apply moves_of_moved, mem_In, in_map. exact Hm. }
  split.
  - rewrite (map_ext_in _
      (fun row => Qsum (map ml_qty_done
         (moves_of db self "supplier" "internal" (l_product_id row)))))
      by (intros row Hin; apply (Hrow row Hin)).
    rewrite <- (map_map l_product_id
      (fun p => Qsum (map ml_qty_done (moves_of db self "supplier" "internal" p)))).
    apply quantity_partition; [exact R1|].
    apply (Hcov _ _ received Er). intros p Hp. apply R2. left. exact Hp.
  - rewrite (map_ext_in _
      (fun row => Qsum (map ml_qty_done
         (moves_of db self "internal" "customer" (l_product_id row)))))
      by (intros row Hin; apply (Hrow row Hin)).
    rewrite <- (map_map l_product_id
      (fun p => Qsum (map ml_qty_done (moves_of db self "internal" "customer" p)))).
    apply quantity_partition; [exact R1|].
    apply (Hcov _ _ delivered Ed). intros p Hp. apply R2. right. exact Hp.
Qed.

Lemma X12_quantities_add_up_witness :
  (Qsum (map l_units_delivered rows_example)
   == Qsum (map ml_qty_done
              (selected_moves db_example self_example "internal" "customer")))%Q.
Proof.
  exact (proj2 (X12_quantities_add_up db_example self_example [] rows_example eq_refl)).
Defined.
